(** * Background-light estimation of the echelle reduction pipeline

    A shallow embedding of [edrs/echelle/background.py]
    ([correct_background] and [fit_background]), of the
    background-matching block and the object-name helpers of
    [gamse/pipelines/foces/reduce_doublefiber.py], and of the entry
    points of [edrs/pipelines/__init__.py].

    Conventions.
    - Pixel rows, columns and aperture numbers are [Z].
    - Floating-point quantities (aperture positions, intensities, fit
      coefficients, residuals) are idealised as exact rationals [Q]; the
      log-scale block, which needs [log10], [10^x] and [nan], is stated
      over the reals extended by the infinities and [nan].
    - Routines of numpy/scipy and of the repository module
      [utils/regression.py] (which is not part of the verified sources) are
      Section variables: [np.polyfit], [np.std], [polyfit2d], [polyval2d],
      and so is [interpolate_background], a wrapper of scipy's [griddata].
    - A Python local that may be unbound is an [option]; reading it while
      unbound raises [UnboundLocalError].
    - In the text helpers a Python [str] is the list of its code points. *)

From Stdlib Require Import ZArith QArith List String Bool Lia Arith.
From Stdlib Require Import Reals Lra Sorted.
Import ListNotations.

Local Open Scope Z_scope.

(** ** Outcomes of Python code *)

(** The exceptions the modelled code can raise. *)
Inductive exn : Type :=
| UnboundLocalError (var : string)
| AttributeError (msg : string)
| ValueError (msg : string)
| TypeError (msg : string).

(** A run either finishes with a value, raises, or is still running when
    the iterations granted to an unbounded [while] loop are used up. *)
Inductive outcome (A : Type) : Type :=
| Done (a : A)
| Raised (e : exn)
| Timeout.

Arguments Done {A} a.
Arguments Raised {A} e.
Arguments Timeout {A}.

(** ** Python and numpy primitives *)

Module Py.

(** [int(q)] on a float: truncation towards zero. *)
Definition int (q : Q) : Z := Z.quot (Qnum q) (Zpos (Qden q)).

(** [q1 < q2] on floats. *)
Definition Qltb (a b : Q) : bool := negb (Qle_bool b a).

(** [np.polyval(coeff, x)]: Horner evaluation, highest degree first. *)
Definition polyval (coeff : list Q) (x : Q) : Q :=
  fold_left (fun y p => (y * x + p)%Q) coeff 0%Q.

(** [a[i1:i2]] for [0 <= i1], [0 <= i2]. *)
Definition slice {A} (a : list A) (i1 i2 : Z) : list A :=
  firstn (Z.to_nat (i2 - i1)) (skipn (Z.to_nat i1) a).

(** [a.argmin()] on a non-empty array: index of the first minimum. *)
Fixpoint argmin_from (best : Q) (ibest i : Z) (a : list Q) : Z :=
  match a with
  | [] => ibest
  | v :: a' =>
      if Qltb v best then argmin_from v i (i + 1) a'
      else argmin_from best ibest (i + 1) a'
  end.

Definition argmin (a : list Q) : Z :=
  match a with
  | [] => 0
  | v :: a' => argmin_from v 0 1 a'
  end.

(** [a[-1]] and [a[0]]. *)
Definition last_opt {A} (a : list A) : option A :=
  match rev a with [] => None | v :: _ => Some v end.

(** [a[np.nonzero(m)[0]]]: the entries of [a] whose flag in [m] is set. *)
Fixpoint select {A} (a : list A) (m : list bool) : list A :=
  match a, m with
  | v :: a', b :: m' => if b then v :: select a' m' else select a' m'
  | _, _ => []
  end.

(** [m.sum()] on a boolean array. *)
Definition count (m : list bool) : nat := List.length (List.filter (fun b => b) m).

(** [np.diff(a)]. *)
Fixpoint diff (a : list Z) : list Z :=
  match a with
  | u :: ((v :: _) as a') => (v - u) :: diff a'
  | _ => []
  end.

End Py.

(** ** The node sampler of [correct_background] (one scanned column) *)

Module Sampler.

(** An aperture set: aperture number -> position evaluator [y = f(x)]. *)
Definition ApertureSet := list (Z * (Z -> Q)).

Fixpoint lookup (aper : Z) (s : ApertureSet) : option (Z -> Q) :=
  match s with
  | [] => None
  | (k, f) :: s' => if Z.eqb k aper then Some f else lookup aper s'
  end.

(** State of the double loop over apertures and channels. *)
Record scan_state := {
  inter_aper : list Z;
  prev_newy  : option Q
}.

Section Column.

(** Frame height, scan stride, the column [meddata[:,x]] and its index. *)
Variable h : Z.
Variable scan_step : Z.
Variable xsection : list Q.
Variable x : Z.

Definition clamp_row (y : Q) : Z := Z.min (h - 1) (Z.max 0 (Py.int y)).

(** Lines 93-100: the body of
    [if count_channel == 1 and prev_newy is not None]. *)
Definition mark_gap (prev this : Q) (ia : list Z) : list Z :=
  let mid_newy := Py.int ((prev + this) / 2) in
  let i1 := clamp_row prev in
  let i2 := clamp_row this in
  let far :=
    match Py.last_opt ia with
    | None => true
    | Some l =>
        Py.Qltb (inject_Z scan_step * (6 # 10)) (inject_Z (Z.abs (mid_newy - l)))
    end in
  if far then
    if 0 <? i2 - i1 then ia ++ [i1 + Py.argmin (Py.slice xsection i1 i2)]
    else ia
  else ia.

(** Lines 85-101: the loop over channels for one aperture. *)
Fixpoint scan_channels (sets : list ApertureSet) (aper : Z)
         (count_channel : nat) (st : scan_state) : scan_state :=
  match sets with
  | [] => st
  | s :: sets' =>
      match lookup aper s with
      | None => scan_channels sets' aper count_channel st
      | Some f =>
          let count_channel := S count_channel in
          let this_newy := f x in
          let ia :=
            match count_channel, prev_newy st with
            | 1%nat, Some prev => mark_gap prev this_newy (inter_aper st)
            | _, _ => inter_aper st
            end in
          scan_channels sets' aper count_channel
            {| inter_aper := ia; prev_newy := Some this_newy |}
      end
  end.

(** Lines 82-101: [for aper in range(min_aper, max_aper+1)]; [n] is the
    number of apertures still to visit. *)
Fixpoint scan_apertures (sets : list ApertureSet) (aper : Z) (n : nat)
         (st : scan_state) : scan_state :=
  match n with
  | O => st
  | S n' =>
      scan_apertures sets (aper + 1) n' (scan_channels sets aper 0 st)
  end.

Definition find_inter_aper (sets : list ApertureSet) (min_aper max_aper : Z)
  : list Z :=
  inter_aper
    (scan_apertures sets min_aper (Z.to_nat (max_aper + 1 - min_aper))
       {| inter_aper := []; prev_newy := None |}).

(** Lines 112-115: the upward walk.  The source loop is a [while] without
    a bound; [fuel] counts the iterations granted and [None] means they
    did not suffice. *)
Fixpoint walk_up (fuel : nat) (coeff : list Q) (ii new_y : Z) (ia : list Z)
  : option (list Z) :=
  if new_y <? h - 1 then
    match fuel with
    | O => None
    | S fuel' =>
        let ii := ii + 1 in
        let new_y := Py.int (Py.polyval coeff (inject_Z ii)) in
        walk_up fuel' coeff ii new_y (ia ++ [new_y])
    end
  else Some ia.

(** Lines 119-122: the downward walk. *)
Fixpoint walk_down (fuel : nat) (coeff : list Q) (ii new_y : Z) (ia : list Z)
  : option (list Z) :=
  if 0 <? new_y then
    match fuel with
    | O => None
    | S fuel' =>
        let ii := ii - 1 in
        let new_y := Py.int (Py.polyval coeff (inject_Z ii)) in
        walk_down fuel' coeff ii new_y (new_y :: ia)
    end
  else Some ia.

(** [np.polyfit(np.arange(n), rows, deg=3)]. *)
Variable polyfit3 : list Z -> list Q.

(** Lines 107-122.  On an empty [inter_aper], [np.polyfit] raises
    [TypeError] before either walk is entered. *)
Definition extend_grid (fuel : nat) (ia : list Z) : outcome (list Z) :=
  match Py.last_opt ia with
  | None => Raised (TypeError "expected non-empty vector for x")
  | Some lst =>
      let coeff := polyfit3 ia in
      match walk_up fuel coeff (Z.of_nat (List.length ia) - 1) lst ia with
      | None => Timeout
      | Some ia1 =>
          match walk_down fuel coeff 0 (hd 0 ia1) ia1 with
          | None => Timeout
          | Some ia2 => Done ia2
          end
      end
  end.

(** Lines 125-127: keep the rows with [0 < y < h-1]. *)
Definition in_frame (ia : list Z) : list Z :=
  Py.select ia (map (fun y => (0 <? y) && (y <? h - 1)) ia).

(** Lines 130-132: "remove backward points". *)
Definition remove_backward (ia : list Z) : list Z :=
  Py.select ia (map (fun d => 0 <? d) (Py.diff (0 :: ia))).

(** Lines 103-132: the node rows of the column. *)
Definition column_rows (fuel : nat) (extend : bool) (ia : list Z)
  : outcome (list Z) :=
  match (if extend then extend_grid fuel ia else Done ia) with
  | Done ia' => Done (remove_backward (in_frame ia'))
  | Raised e => Raised e
  | Timeout => Timeout
  end.

(** Lines 134-139: the nodes of the column, masked pixels left out;
    [data_mask_col] is [data_mask[:,x]]. *)
Definition column_nodes (data_mask_col : list bool) (rows : list Z)
  : list (Z * Z * Q) :=
  flat_map
    (fun y =>
       if nth (Z.to_nat y) data_mask_col false then []
       else [(x, y, nth (Z.to_nat y) xsection 0%Q)])
    rows.

End Column.

End Sampler.

(** ** [fit_background]: the sigma-clipped 2-D polynomial fit *)

Module Fit.

(** One line of [_messages]: [Iter. %d: std=..., N=..., N(new)=...]. *)
Record message := {
  msg_niter : nat;
  msg_std   : Q;
  msg_N     : nat;
  msg_Nnew  : nat
}.

(** Local state of the [for niter in range(maxiter)] loop; [coeff] is
    unbound until the first round has run. *)
Record loop_state (Coeff : Type) := {
  coeff     : option Coeff;
  mask      : list bool;
  _messages : list message
}.

Arguments coeff {Coeff} _.
Arguments mask {Coeff} _.
Arguments _messages {Coeff} _.

(** [np.mgrid[:h:, :w:]], flattened row by row. *)
Definition mgrid_yy (h w : Z) : list Z :=
  flat_map (fun i => repeat (Z.of_nat i) (Z.to_nat w)) (seq 0 (Z.to_nat h)).

Definition mgrid_xx (h w : Z) : list Z :=
  flat_map (fun _ => map Z.of_nat (seq 0 (Z.to_nat w))) (seq 0 (Z.to_nat h)).

(** [a/n] on an integer array. *)
Definition normalize (a : list Z) (n : Z) : list Q :=
  map (fun v => (inject_Z v / inject_Z n)%Q) a.

(** Elementwise [a - b] and [a * b] (on boolean arrays, [*] is [and]). *)
Fixpoint sub_arr (a b : list Q) : list Q :=
  match a, b with
  | u :: a', v :: b' => (u - v)%Q :: sub_arr a' b'
  | _, _ => []
  end.

Fixpoint mul_mask (a b : list bool) : list bool :=
  match a, b with
  | u :: a', v :: b' => (u && v) :: mul_mask a' b'
  | _, _ => []
  end.

Section Fitter.

(** The regression helpers of [utils/regression.py] and [np.std]. *)
Variable Coeff : Type.
Variable polyfit2d : list Q -> list Q -> list Q -> Z -> Z -> Coeff.
Variable polyval2d : list Q -> list Q -> Coeff -> list Q.
Variable std : list Q -> Q.

Variables (xfit yfit zfit : list Q).
Variables (xorder yorder : Z).
Variables (upper_clip lower_clip : Q).

(** Lines 358-365: fit, residuals, sigma and the clipped mask. *)
Definition fit_on (m : list bool) : Coeff :=
  polyfit2d (Py.select xfit m) (Py.select yfit m) (Py.select zfit m)
            xorder yorder.

Definition residuals_of (c : Coeff) : list Q :=
  sub_arr zfit (polyval2d xfit yfit c).

Definition sigma_of (c : Coeff) (m : list bool) : Q :=
  std (Py.select (residuals_of c) m).

Definition clip (c : Coeff) (m : list bool) : list bool :=
  let residuals := residuals_of c in
  let sigma := sigma_of c m in
  let m1 := map (fun r => Py.Qltb r (upper_clip * sigma)) residuals in
  let m2 := map (fun r => Py.Qltb (- lower_clip * sigma) r) residuals in
  mul_mask m1 m2.

(** Lines 357-373.  The result flag tells whether the loop was left
    through [break]. *)
Fixpoint fit_loop (rounds niter : nat) (st : loop_state Coeff)
  : loop_state Coeff * bool :=
  match rounds with
  | O => (st, false)
  | S rounds' =>
      let c := fit_on (mask st) in
      let new_mask := clip c (mask st) in
      let _message :=
        {| msg_niter := niter; msg_std := sigma_of c (mask st);
           msg_N := Py.count (mask st); msg_Nnew := Py.count new_mask |} in
      let msgs := _messages st ++ [_message] in
      if Nat.eqb (Py.count new_mask) (Py.count (mask st)) then
        ({| coeff := Some c; mask := mask st; _messages := msgs |}, true)
      else
        fit_loop rounds' (S niter)
          {| coeff := Some c; mask := new_mask; _messages := msgs |}
  end.

(** Lines 355-373: the loop entered with [mask] bound to [mask0] and
    [coeff] unbound. *)
Definition run_from (maxiter : nat) (mask0 : list bool)
  : loop_state Coeff * bool :=
  fit_loop maxiter 0 {| coeff := None; mask := mask0; _messages := [] |}.

(** [np.ones_like(zfit, dtype=np.bool)]. *)
Definition ones_like {A} (a : list A) : list bool := map (fun _ => true) a.

(** Lines 377-379: the surface over the whole pixel grid. *)
Definition surface_of (h w : Z) (c : Coeff) : list Q :=
  polyval2d (normalize (mgrid_xx h w) w) (normalize (mgrid_yy h w) h) c.

Definition finish (h w : Z) (st : loop_state Coeff)
  : outcome (list Q * list bool) :=
  match coeff st with
  | None => Raised (UnboundLocalError "coeff")
  | Some c => Done (surface_of h w c, mask st)
  end.

End Fitter.

(** [fit_background(shape, xnodes, ynodes, znodes, xorder, yorder,
    maxiter, upper_clip, lower_clip)], lines 342-379: the value returned
    and the "Iter." lines sent to [logger.debug]. *)
Definition fit_background
    (Coeff : Type)
    (polyfit2d : list Q -> list Q -> list Q -> Z -> Z -> Coeff)
    (polyval2d : list Q -> list Q -> Coeff -> list Q)
    (std : list Q -> Q)
    (shape : Z * Z) (xnodes ynodes : list Z) (znodes : list Q)
    (xorder yorder : Z) (maxiter : nat) (upper_clip lower_clip : Q)
  : outcome (list Q * list bool) * list message :=
  let '(h, w) := shape in
  let xfit := normalize xnodes w in
  let yfit := normalize ynodes h in
  let zfit := znodes in
  let mask := ones_like zfit in
  let st := fst (run_from Coeff polyfit2d polyval2d std xfit yfit zfit
                   xorder yorder upper_clip lower_clip maxiter mask) in
  (finish Coeff polyval2d h w st, _messages st).

End Fit.

(** ** The body of [correct_background] after node sampling *)

Module Body.

(** What the function does to the outside world. *)
Inductive effect : Type :=
| LogInfo (text : string)
| Print (text : string)
| Plot (what : string)
| Show
| SaveFig (file : string)
| CloseFig
| WriteFile (file : string) (nlines : nat).

(** Control after a statement: fall through to the next one, leave the
    function with [return v], raise, or never come back from a callee. *)
Inductive flow (V A : Type) : Type :=
| Next (a : A)
| Return (v : V)
| Raise (e : exn)
| Diverge.

Arguments Next {V A} a.
Arguments Return {V A} v.
Arguments Raise {V A} e.
Arguments Diverge {V A}.

(** A statement: the effects so far are threaded through. *)
Definition stmt (V A : Type) : Type := list effect -> flow V A * list effect.

Definition ret {V A} (a : A) : stmt V A := fun tr => (Next a, tr).

Definition bind {V A B} (s : stmt V A) (k : A -> stmt V B) : stmt V B :=
  fun tr =>
    match s tr with
    | (Next a, tr') => k a tr'
    | (Return v, tr') => (Return v, tr')
    | (Raise e, tr') => (Raise e, tr')
    | (Diverge, tr') => (Diverge, tr')
    end.

Definition emit {V} (e : effect) : stmt V unit := fun tr => (Next tt, tr ++ [e]).
Definition return_ {V A} (v : V) : stmt V A := fun tr => (Return v, tr).
Definition raise {V A} (e : exn) : stmt V A := fun tr => (Raise e, tr).

(** Reading a local that may be unbound. *)
Definition read {V A} (name : string) (v : option A) : stmt V A :=
  match v with
  | Some a => ret a
  | None => raise (UnboundLocalError name)
  end.

(** A call whose callee may raise. *)
Definition call {V A} (r : outcome A) : stmt V A :=
  match r with
  | Done a => ret a
  | Raised e => raise e
  | Timeout => fun tr => (Diverge, tr)
  end.

Definition when {V} (b : bool) (s : stmt V unit) : stmt V unit :=
  if b then s else ret tt.

Declare Scope stmt_scope.
Delimit Scope stmt_scope with stmt.
Notation "x <- s ;; k" := (bind s (fun x => k))
  (at level 61, s at next level, right associativity) : stmt_scope.
Notation "s ;; k" := (bind s (fun _ => k))
  (at level 61, right associativity) : stmt_scope.

Local Open Scope stmt_scope.
Local Open Scope string_scope.

Section CorrectBackground.

(** The number type of the arrays and the numpy functions used on it. *)
Variable F : Type.
Variable zero : F.
Variable ltb : F -> F -> bool.
Variable minimum : F -> F -> F.
Variable log10 : F -> F.
Variable power10 : F -> F.

(** Lines 149-152: [znodes[~pmask] = znodes[pmask].min()] and the
    [log10] transform; [min] of an empty selection raises. *)
Definition clamp_nonpositive (znodes : list F) : outcome (list F) :=
  let pmask := map (fun z => ltb zero z) znodes in
  match Py.select znodes pmask with
  | [] => Raised (ValueError "zero-size array to reduction operation minimum")
  | p :: ps =>
      let m := fold_left minimum ps p in
      Done (map (fun z => if ltb zero z then z else m) znodes)
  end.

Definition log_scale (znodes : list F) : outcome (list F) :=
  match clamp_nonpositive znodes with
  | Done zs => Done (map log10 zs)
  | Raised e => Raised e
  | Timeout => Timeout
  end.

(** The two fitters, already applied to the nodes they are given. *)
Variable fit_background : list F -> outcome (list F * list bool).
Variable interpolate_background : list F -> outcome (list F * list bool).

(** Lines 146-339; the plotting calls are kept as [Plot] effects. *)
Definition correct_background_body
    (method scale : string) (display : bool)
    (fig_file reg_file : option string) (znodes : list F)
  : stmt (list F) unit :=
  let plot := display || (match fig_file with Some _ => true | None => false end) in
  emit (LogInfo "Found nodes for background fitting") ;;
  znodes <- (if String.eqb scale "log" then call (log_scale znodes)
             else ret znodes) ;;
  fig <- (if plot then emit (Plot "figure") ;; ret (Some tt)
          else ret None) ;;
  fitted <- (if String.eqb method "poly" then
               r <- call (fit_background znodes) ;; ret (Some r)
             else if String.eqb method "interp" then
               r <- call (interpolate_background znodes) ;; ret (Some r)
             else
               emit (Print ("Unknown method: " ++ method)) ;; ret None) ;;
  let background_data := option_map fst fitted in
  let fitmask := option_map snd fitted in
  background_data <-
    (if String.eqb scale "log" then
       b <- read "background_data" background_data ;;
       ret (Some (map power10 b))
     else ret background_data) ;;
  m <- read "fitmask" fitmask ;;
  emit (LogInfo "Background Nodes:") ;;
  b <- read "background_data" background_data ;;
  when plot (emit (Plot "surface and residuals") ;;
             emit (Plot "nodes and background")) ;;
  emit Show ;;
  match fig_file with
  | Some f => _ <- read "fig" fig ;; emit (SaveFig f)
  | None => ret tt
  end ;;
  _ <- read "fig" fig ;;
  emit CloseFig ;;
  (return_ b : stmt (list F) unit) ;;
  match reg_file with
  | Some f => emit (WriteFile f (3 + List.length znodes))
  | None => ret tt
  end.

(** The call as a whole: what comes back and what was done. *)
Definition correct_background
    (method scale : string) (display : bool)
    (fig_file reg_file : option string) (znodes : list F)
  : outcome (option (list F)) * list effect :=
  match correct_background_body method scale display fig_file reg_file
          znodes [] with
  | (Next _, tr) => (Done None, tr)
  | (Return v, tr) => (Done (Some v), tr)
  | (Raise e, tr) => (Raised e, tr)
  | (Diverge, tr) => (Timeout, tr)
  end.

End CorrectBackground.

End Body.

(** ** Background matching in [reduce_doublefiber] *)

Module Matching.

Import Body.
Local Open Scope stmt_scope.
Local Open Scope string_scope.

(** A stored background: [info['fileid']] and the 2-D map [data]. *)
Record BackgroundLight := {
  fileid : string;
  data   : list Q
}.

(** Elementwise [a + b*s] and [a - b]. *)
Fixpoint add_scaled (a b : list Q) (s : Q) : list Q :=
  match a, b with
  | u :: a', v :: b' => (u + v * s)%Q :: add_scaled a' b' s
  | _, _ => []
  end.

(** What a frame without background ends in: the message of line 1702
    and the exception of line 1726, where [selected_bkg] is [None]. *)
Definition not_found : effect :=
  Print "Error: No background found in the database".

Definition no_data : exn :=
  AttributeError "'NoneType' object has no attribute 'data'".

(** Locals of the loop over fibers that survive an iteration. *)
Record locals := {
  background : list Q;
  scale      : option Q;
  fiber_sel_bkg_lst : list (Z * BackgroundLight);
  fiber_scale_lst   : list (Z * Q)
}.

Section Frame.

(** The matcher of [echelle/background.py] (not among the verified
    sources) and the scale fit, as the caller sees them. *)
Variable find_best_background : Z -> string -> option BackgroundLight.
Variable select_background_from_database : Z -> string -> option BackgroundLight.
Variable find_brightness_scale : Z -> BackgroundLight -> Q.

(** Lines 1686-1710: the two look-ups for one fiber. *)
Definition select_for (ifiber : Z) (objname : string)
  : stmt (list Q) (option BackgroundLight * bool) :=
  match find_best_background ifiber objname with
  | None =>
      match select_background_from_database ifiber objname with
      | None =>
          emit (LogInfo "Error: No background found in the database") ;;
          emit not_found ;;
          ret (None, false)
      | Some b => ret (Some b, true)
      end
  | Some b => ret (Some b, true)
  end.

(** Lines 1656-1726: one round of [for (ifiber, objname) in fiberobj_lst]. *)
Definition fiber_round (fo : Z * string) (st : locals)
  : stmt (list Q) locals :=
  let '(ifiber, objname) := fo in
  r <- select_for ifiber objname ;;
  let '(selected_bkg, find_background) := r in
  st <-
    (if find_background then
       match selected_bkg with
       | None => raise (AttributeError "'NoneType' object has no attribute 'info'")
       | Some b =>
           let s := find_brightness_scale ifiber b in
           emit (LogInfo ("Use background of " ++ fileid b)) ;;
           emit (Print ("Use background of " ++ fileid b)) ;;
           ret {| background := background st; scale := Some s;
                  fiber_sel_bkg_lst := (ifiber, b) :: fiber_sel_bkg_lst st;
                  fiber_scale_lst := (ifiber, s) :: fiber_scale_lst st |}
       end
     else ret st) ;;
  match selected_bkg with
  | None => raise no_data
  | Some b =>
      s <- read "scale" (scale st) ;;
      ret {| background := add_scaled (background st) (data b) s;
             scale := scale st;
             fiber_sel_bkg_lst := fiber_sel_bkg_lst st;
             fiber_scale_lst := fiber_scale_lst st |}
  end.

Fixpoint fiber_loop (fiberobj_lst : list (Z * string)) (st : locals)
  : stmt (list Q) locals :=
  match fiberobj_lst with
  | [] => ret st
  | fo :: rest => st' <- fiber_round fo st ;; fiber_loop rest st'
  end.

(** Lines 1651-1750: the background step of one frame; the value is the
    frame after [data = data - background]. *)
Definition subtract_background (frame : list Q)
    (fiberobj_lst : list (Z * string)) : stmt (list Q) (list Q) :=
  st <- fiber_loop fiberobj_lst
          {| background := map (fun _ => 0%Q) frame; scale := None;
             fiber_sel_bkg_lst := []; fiber_scale_lst := [] |} ;;
  emit (Plot "brightness profile") ;;
  emit (Plot "background") ;;
  let frame' := Fit.sub_arr frame (background st) in
  emit (LogInfo "Background corrected.") ;;
  emit (Print "Background corrected.") ;;
  ret frame'.

End Frame.

End Matching.

(** ** The fit-and-clip rounds as the specification words them *)

Module FitSpec.

Section Rounds.

Variable Coeff : Type.
Variable polyfit2d : list Q -> list Q -> list Q -> Z -> Z -> Coeff.
Variable polyval2d : list Q -> list Q -> Coeff -> list Q.
Variable std : list Q -> Q.
Variables (xfit yfit zfit : list Q).
Variables (xorder yorder : Z).
Variables (upper_clip lower_clip : Q).

(** "accept a node if [-lower_clip*sigma < residual < upper_clip*sigma]" *)
Definition accept (sigma residual : Q) : bool :=
  Py.Qltb (- lower_clip * sigma) residual
  && Py.Qltb residual (upper_clip * sigma).

(** One round: least squares over the accepted nodes, residuals of all
    nodes, sigma over the accepted nodes, the new accepted set. *)
Definition round (accepted : list bool) : Coeff * list bool :=
  let c := polyfit2d (Py.select xfit accepted) (Py.select yfit accepted)
                     (Py.select zfit accepted) xorder yorder in
  let residuals := Fit.sub_arr zfit (polyval2d xfit yfit c) in
  let sigma := std (Py.select residuals accepted) in
  (c, map (accept sigma) residuals).

(** Up to [rounds] rounds; [stop new old] is the early-exit test, and on
    an early exit the working set is kept. *)
Fixpoint rounds_with (stop : list bool -> list bool -> bool)
         (rounds : nat) (c0 : option Coeff) (accepted : list bool)
  : option Coeff * list bool :=
  match rounds with
  | O => (c0, accepted)
  | S rounds' =>
      let '(c, new) := round accepted in
      if stop new accepted then (Some c, accepted)
      else rounds_with stop rounds' (Some c) new
  end.

End Rounds.

(** "stop early if the accepted set is unchanged" *)
Definition set_unchanged (new old : list bool) : bool :=
  if list_eq_dec Bool.bool_dec new old then true else false.

(** The test of line 371: the number of accepted nodes is unchanged. *)
Definition count_unchanged (new old : list bool) : bool :=
  Nat.eqb (Py.count new) (Py.count old).

(** "re-fitting with the final iteration's accepted mask as the initial
    mask".  [fit_background] has no argument for an initial mask; this
    is its body with line 355, [mask = np.ones_like(zfit)], replaced by
    the mask given. *)
Definition refit
    (Coeff : Type)
    (polyfit2d : list Q -> list Q -> list Q -> Z -> Z -> Coeff)
    (polyval2d : list Q -> list Q -> Coeff -> list Q)
    (std : list Q -> Q)
    (initial_mask : list bool)
    (shape : Z * Z) (xnodes ynodes : list Z) (znodes : list Q)
    (xorder yorder : Z) (maxiter : nat) (upper_clip lower_clip : Q)
  : outcome (list Q * list bool) * list Fit.message :=
  let '(h, w) := shape in
  let xfit := Fit.normalize xnodes w in
  let yfit := Fit.normalize ynodes h in
  let zfit := znodes in
  let st := fst (Fit.run_from Coeff polyfit2d polyval2d std xfit yfit zfit
                   xorder yorder upper_clip lower_clip maxiter
                   initial_mask) in
  (Fit.finish Coeff polyval2d h w st, Fit._messages st).

(** A fit has converged when its loop was left through [break]: the last
    line of the log then shows [N = N(new)]. *)
Definition converged (log : list Fit.message) : Prop :=
  match Py.last_opt log with
  | Some m => Fit.msg_N m = Fit.msg_Nnew m
  | None => False
  end.

End FitSpec.

(** ** The pairing of order centers as the specification words it *)

Module SamplerSpec.

Section Column.

Variable h : Z.
Variable scan_step : Z.
Variable xsection : list Q.
Variable x : Z.

(** The centers met at one aperture, in channel order. *)
Definition centers_at (sets : list Sampler.ApertureSet) (aper : Z) : list Q :=
  flat_map
    (fun s => match Sampler.lookup aper s with
              | Some f => [f x]
              | None => []
              end)
    sets.

(** The centers per aperture, for [aper] in [range(min_aper, max_aper+1)]. *)
Definition centers_by_aperture (sets : list Sampler.ApertureSet)
           (min_aper max_aper : Z) : list (list Q) :=
  map (fun k => centers_at sets (min_aper + Z.of_nat k))
      (seq 0 (Z.to_nat (max_aper + 1 - min_aper))).

(** "for each pair of consecutively-encountered order centers": every two
    neighbours of the flattened sequence are paired. *)
Fixpoint every_pair (centers : list Q) (ia : list Z) : list Z :=
  match centers with
  | p :: ((q :: _) as rest) =>
      every_pair rest (Sampler.mark_gap h scan_step xsection p q ia)
  | _ => ia
  end.

Definition claimed_inter_aper (sets : list Sampler.ApertureSet)
           (min_aper max_aper : Z) : list Z :=
  every_pair (List.concat (centers_by_aperture sets min_aper max_aper)) [].

(** "the row of minimum intensity in a small neighborhood around the
    geometric midpoint": the first such row among the rows at most
    [radius] away from the midpoint. *)
Definition neighbourhood_minimum (radius : Z) (prev this : Q) : Z :=
  let mid_newy := Py.int ((prev + this) / 2) in
  let lo := Z.max 0 (mid_newy - radius) in
  let hi := Z.min h (mid_newy + radius + 1) in
  lo + Py.argmin (Py.slice xsection lo hi).

(** "a midpoint is skipped whenever it lies within 0.6 x scan_step of the
    previously accepted midpoint": the rows recorded for a sequence of
    pairs when the distance is taken to the midpoint accepted last. *)
Fixpoint by_accepted_midpoint (pairs : list (Q * Q)) (accepted : option Z)
         (ia : list Z) : list Z :=
  match pairs with
  | [] => ia
  | (prev, this) :: rest =>
      let mid_newy := Py.int ((prev + this) / 2) in
      let i1 := Sampler.clamp_row h prev in
      let i2 := Sampler.clamp_row h this in
      let far :=
        match accepted with
        | None => true
        | Some m =>
            Py.Qltb (inject_Z scan_step * (6 # 10))
                    (inject_Z (Z.abs (mid_newy - m)))
        end in
      if far && (0 <? i2 - i1) then
        by_accepted_midpoint rest (Some mid_newy)
          (ia ++ [i1 + Py.argmin (Py.slice xsection i1 i2)])
      else by_accepted_midpoint rest accepted ia
  end.

(** Pairing across apertures only: the first center of an aperture with
    the center met last before it. *)
Fixpoint across_apertures (groups : list (list Q)) (prev : option Q)
         (ia : list Z) : list Z :=
  match groups with
  | [] => ia
  | [] :: groups' => across_apertures groups' prev ia
  | (c :: cs) :: groups' =>
      let ia' :=
        match prev with
        | Some p => Sampler.mark_gap h scan_step xsection p c ia
        | None => ia
        end in
      across_apertures groups' (Some (last cs c)) ia'
  end.

End Column.

End SamplerSpec.

(** ** Regression at degree (0,0) and the population standard deviation *)

Module Numerics.

Definition Qsum (a : list Q) : Q := fold_left Qplus a 0%Q.

Definition mean (a : list Q) : Q :=
  (Qsum a / inject_Z (Z.of_nat (List.length a)))%Q.

(** Modelled from the spec: [polyfit2d] of [utils/regression.py] is
    missing from the verified sources; the spec has it "fit a 2-D
    polynomial of degree (xorder, yorder) by least squares".  At degree
    (0,0) that polynomial is one coefficient, the mean of [z]. *)
Definition polyfit2d_const (x y z : list Q) (xorder yorder : Z) : list Q :=
  [Qred (mean z)].

(** Modelled from the spec: [polyval2d] of [utils/regression.py],
    evaluating the degree-(0,0) polynomial at every point. *)
Definition polyval2d_const (x y : list Q) (c : list Q) : list Q :=
  map (fun _ => hd 0%Q c) x.

(** Square root of a rational: exact on squares of rationals, rounded
    down on numerator and denominator otherwise. *)
Definition Qsqrt (q : Q) : Q :=
  let r := Qred q in
  Z.sqrt (Qnum r) # Pos.sqrt (Qden r).

Definition variance (a : list Q) : Q :=
  let m := mean a in
  mean (map (fun v => ((v - m) * (v - m))%Q) a).

(** [np.std]: the population standard deviation. *)
Definition std (a : list Q) : Q := Qsqrt (variance a).

End Numerics.

(** ** Floating-point numbers with [inf] and [nan] *)

Module Float.

(** A float64 of numpy, idealised: a real number (rounding, overflow and
    underflow are left out), an infinity, or [nan]. *)
Inductive float : Type :=
| Fin (r : R)
| PInf
| NInf
| NaN.

Definition zero : float := Fin 0.

(** [a < b]: false as soon as one side is [nan]. *)
Definition ltb (a b : float) : bool :=
  match a, b with
  | NaN, _ => false
  | _, NaN => false
  | Fin x, Fin y => if Rlt_dec x y then true else false
  | NInf, NInf => false
  | NInf, _ => true
  | Fin _, PInf => true
  | _, _ => false
  end.

(** The step of [ndarray.min()]: [nan] wins, else the smaller one. *)
Definition minimum (a b : float) : float :=
  match a, b with
  | NaN, _ => NaN
  | _, NaN => NaN
  | _, _ => if ltb b a then b else a
  end.

(** [np.log10]: [-inf] at 0, [nan] below. *)
Definition log10 (v : float) : float :=
  match v with
  | Fin r =>
      if Rlt_dec 0 r then Fin (ln r / ln 10)
      else if Rlt_dec r 0 then NaN else NInf
  | PInf => PInf
  | NInf => NaN
  | NaN => NaN
  end.

(** [np.power(10, v)]. *)
Definition power10 (v : float) : float :=
  match v with
  | Fin r => Fin (Rpower 10 r)
  | PInf => PInf
  | NInf => Fin 0
  | NaN => NaN
  end.

(** [v >= 0]. *)
Definition nonneg (v : float) : Prop :=
  match v with
  | Fin r => (0 <= r)%R
  | PInf => True
  | NInf => False
  | NaN => False
  end.

End Float.

(** ** [correct_background] over these numbers *)

Module FloatBody.

Definition clamp_nonpositive :=
  Body.clamp_nonpositive Float.float Float.zero Float.ltb Float.minimum.
Definition log_scale :=
  Body.log_scale Float.float Float.zero Float.ltb Float.minimum Float.log10.
Definition correct_background :=
  Body.correct_background Float.float Float.zero Float.ltb Float.minimum
    Float.log10 Float.power10.

End FloatBody.

(** ** Concrete frames and node sets *)

Module Examples.

(** A column of a 1000-row frame whose four inter-order minima lie at
    rows 100, 199, 292 and 373; the cubic through them (index 0..3) is
    [-n^3 + 100 n + 100]. *)
Definition rows_down : list Z := [100; 199; 292; 373].
Definition cubic_down : list Q := [-1 # 1; 0; 100 # 1; 100 # 1]%Q.

(** A column of a 350-row frame: one fiber, order centers at rows 5, 100,
    200, 250 and 300, intensity 1 everywhere except 0 at rows 10, 147,
    230 and 271.  The cubic through these four rows is
    [2 n^3 - 33 n^2 + 168 n + 10]. *)
Definition column_dip : list Q :=
  map (fun i => if existsb (Nat.eqb i) [10; 147; 230; 271]%nat
                then 0%Q else 1%Q)
      (seq 0 350).
Definition fiber_dip : Sampler.ApertureSet :=
  [(0, fun _ => 5 # 1); (1, fun _ => 100 # 1); (2, fun _ => 200 # 1);
   (3, fun _ => 250 # 1); (4, fun _ => 300 # 1)].
Definition rows_dip : list Z := [10; 147; 230; 271].
Definition cubic_dip : list Q := [2 # 1; -33 # 1; 168 # 1; 10 # 1]%Q.

(** A column of a 40-row frame: one fiber, order centers at rows 0, 20
    and 28, intensity 1 everywhere except 0 at row 19. *)
Definition column_low19 : list Q :=
  map (fun i => if Nat.eqb i 19 then 0%Q else 1%Q) (seq 0 40).
Definition fiber_near : Sampler.ApertureSet :=
  [(0, fun _ => 0 # 1); (1, fun _ => 20 # 1); (2, fun _ => 28 # 1)].

(** A column of a 50-row double-fiber frame: fiber A has its orders 0 and
    1 at rows 10 and 30, fiber B at rows 20 and 40; flat intensity. *)
Definition column_flat : list Q := repeat 1%Q 50.
Definition fiber_A : Sampler.ApertureSet :=
  [(0, fun _ => 10 # 1); (1, fun _ => 30 # 1)].
Definition fiber_B : Sampler.ApertureSet :=
  [(0, fun _ => 20 # 1); (1, fun _ => 40 # 1)].

(** [interpolate_background] on a frame of 4 rows and 2 columns whose
    nodes are the four pixels of rows 1 and 2, listed column by column as
    the sampler lists them: scipy's [griddata] goes through the node
    values and, called without [fill_value] as it is here, gives [nan] at
    every pixel outside the convex hull of the nodes, which is every
    pixel of rows 0 and 3. *)
Definition griddata_rows_1_2 (znodes : list Float.float)
  : outcome (list Float.float * list bool) :=
  match znodes with
  | [z01; z02; z11; z12] =>
      Done ([Float.NaN; Float.NaN; z01; z11; z02; z12; Float.NaN; Float.NaN],
            [true; true; true; true])
  | _ => Raised (ValueError "different number of values and points")
  end.

(** Six nodes of a frame of 8 rows and 2 columns, with intensities 0, 0,
    3, 4, 19, 22, to be fitted at degree (0,0) with [upper_clip = 1.5]
    and [lower_clip = 0.5]. *)
Definition six_shape : Z * Z := (8, 2).
Definition six_x : list Z := [0; 0; 0; 1; 1; 1].
Definition six_y : list Z := [1; 3; 5; 2; 4; 6].
Definition six_z : list Q := [0; 0; 3 # 1; 4 # 1; 19 # 1; 22 # 1]%Q.

Definition fit_const :=
  Fit.fit_background (list Q) Numerics.polyfit2d_const
    Numerics.polyval2d_const Numerics.std.

Definition refit_const :=
  FitSpec.refit (list Q) Numerics.polyfit2d_const
    Numerics.polyval2d_const Numerics.std.

End Examples.

(** ** The rest of the node sampler: scan columns, bad pixels, aperture range *)

Module Scan.

(** [ceil(a / b)] for [b <> 0]. *)
Definition cdiv (a b : Z) : Z := - ((- a) / b).

(** [np.arange(0, stop, step)] on integers; [None] when numpy raises
    (a zero step). *)
Definition arange (stop step : Z) : option (list Z) :=
  if step =? 0 then None
  else Some (map (fun k => Z.of_nat k * step)
                 (seq 0 (Z.to_nat (cdiv stop step)))).

(** Lines 71-74: the columns to scan; [None] when the code raises (a zero
    step, or [x_lst[-1]] on an empty list). *)
Definition x_lst (w scan_step : Z) : option (list Z) :=
  match arange (w - 1) scan_step with
  | None => None
  | Some l =>
      match Py.last_opt l with
      | None => None
      | Some v => Some (if negb (v =? w - 1) then l ++ [w - 1] else l)
      end
  end.

(** [np.int16(v)]: wrap-around to 16 bits, two's complement. *)
Definition int16 (v : Z) : Z := (v + 32768) mod 65536 - 32768.

(** Line 60: [data_mask = (np.int16(mask) & block_mask > 0)] at one
    pixel; [&] binds tighter than [>]. *)
Definition data_mask (block_mask : Z) (mask_value : Z) : bool :=
  0 <? Z.land (int16 mask_value) block_mask.

(** [min(l)] and [max(l)]; [None] for the [ValueError] on an empty
    list. *)
Definition py_min (l : list Z) : option Z :=
  match l with
  | [] => None
  | v :: l' => Some (fold_left Z.min l' v)
  end.

Definition py_max (l : list Z) : option Z :=
  match l with
  | [] => None
  | v :: l' => Some (fold_left Z.max l' v)
  end.

(** [[f(s) for s in sets]] where [f] may raise. *)
Fixpoint each {A B} (f : A -> option B) (l : list A) : option (list B) :=
  match l with
  | [] => Some []
  | a :: l' =>
      match f a, each f l' with
      | Some b, Some bs => Some (b :: bs)
      | _, _ => None
      end
  end.

(** Lines 67-68: the least and the greatest aperture number over all
    channels. *)
Definition min_aper (sets : list Sampler.ApertureSet) : option Z :=
  match each (fun s => py_min (map fst s)) sets with
  | Some ms => py_min ms
  | None => None
  end.

Definition max_aper (sets : list Sampler.ApertureSet) : option Z :=
  match each (fun s => py_max (map fst s)) sets with
  | Some ms => py_max ms
  | None => None
  end.

Section Frame.

(** The frame: its height, the median-filtered image by column
    ([meddata[:,x]]), the mask by column, and the parameters of
    [correct_background]. *)
Variable h : Z.
Variable meddata : Z -> list Q.
Variable mask : Z -> list Z.
Variable block_mask : Z.
Variable scan_step : Z.
Variable extend : bool.
Variable polyfit3 : list Z -> list Q.
Variable sets : list Sampler.ApertureSet.

(** Lines 77-139 for one column [x], given the aperture range. *)
Definition column (fuel : nat) (lo hi x : Z) : outcome (list (Z * Z * Q)) :=
  let xsection := meddata x in
  let inter_aper := Sampler.find_inter_aper h scan_step xsection x sets lo hi in
  match Sampler.column_rows h polyfit3 fuel extend inter_aper with
  | Done rows =>
      Done (Sampler.column_nodes xsection x
              (map (data_mask block_mask) (mask x)) rows)
  | Raised e => Raised e
  | Timeout => Timeout
  end.

(** Lines 77-139: the columns one after the other. *)
Fixpoint columns (fuel : nat) (lo hi : Z) (xs : list Z)
  : outcome (list (Z * Z * Q)) :=
  match xs with
  | [] => Done []
  | x :: xs' =>
      match column fuel lo hi x with
      | Done nodes =>
          match columns fuel lo hi xs' with
          | Done rest => Done (nodes ++ rest)
          | Raised e => Raised e
          | Timeout => Timeout
          end
      | Raised e => Raised e
      | Timeout => Timeout
      end
  end.

End Frame.

End Scan.

(** ** The shape of the fit log *)

Module FitLog.

(** A log whose first line is numbered [k] and reports [n] working
    nodes: lines are numbered consecutively, each line's [N] is the
    [N(new)] of the line before, and only the last line may show
    [N = N(new)]. *)
Fixpoint chained (k n : nat) (log : list Fit.message) : Prop :=
  match log with
  | [] => True
  | m :: log' =>
      Fit.msg_niter m = k /\ Fit.msg_N m = n
      /\ (log' <> [] -> Fit.msg_N m <> Fit.msg_Nnew m)
      /\ chained (S k) (Fit.msg_Nnew m) log'
  end.

End FitLog.

(** ** The background a frame ends with *)

Module Chosen.

Import Matching.

Section Frame.

Variable find_best_background : Z -> string -> option BackgroundLight.
Variable select_background_from_database :
  Z -> string -> option BackgroundLight.
Variable find_brightness_scale : Z -> BackgroundLight -> Q.

(** Lines 1687-1710: [selected_bkg] after the two look-ups, the
    background of the same data set when there is one, else that of the
    database. *)
Definition selected_bkg (fo : Z * string) : option BackgroundLight :=
  match find_best_background (fst fo) (snd fo) with
  | Some b => Some b
  | None => select_background_from_database (fst fo) (snd fo)
  end.

(** Line 1726 over all fibers: the scaled backgrounds added up in the
    order of [fiberobj_lst], starting from [background]. *)
Definition summed (background : list Q) (fiberobj_lst : list (Z * string))
  : list Q :=
  fold_left
    (fun bg fo =>
       match selected_bkg fo with
       | Some b => add_scaled bg (data b) (find_brightness_scale (fst fo) b)
       | None => bg
       end)
    fiberobj_lst background.

End Frame.

End Chosen.

(** ** Object names of the fibers *)

Module Text.

(** A Python [str]: the list of its code points. *)
Definition str : Type := list Z.

(** A literal of the source as a [str]. *)
Definition lit (s : string) : str :=
  map (fun c => Z.of_N (Ascii.N_of_ascii c)) (list_ascii_of_string s).

(** The characters [str.strip()] removes: those for which
    [str.isspace] holds. *)
Definition isspace (c : Z) : bool :=
  ((9 <=? c) && (c <=? 13)) || ((28 <=? c) && (c <=? 32))
  || (c =? 133) || (c =? 160) || (c =? 5760)
  || ((8192 <=? c) && (c <=? 8202))
  || (c =? 8232) || (c =? 8233) || (c =? 8239) || (c =? 8287)
  || (c =? 12288).

Fixpoint lstrip (s : str) : str :=
  match s with
  | [] => []
  | c :: s' => if isspace c then lstrip s' else s
  end.

Fixpoint rstrip (s : str) : str :=
  match s with
  | [] => []
  | c :: s' =>
      match rstrip s' with
      | [] => if isspace c then [] else [c]
      | r => c :: r
      end
  end.

(** [s.strip()]. *)
Definition strip (s : str) : str := rstrip (lstrip s).

Fixpoint starts_with (p s : str) : bool :=
  match p, s with
  | [], _ => true
  | a :: p', b :: s' => (a =? b) && starts_with p' s'
  | _ :: _, [] => false
  end.

(** The scan of [str.split(sep)] from left to right: [cur] is the piece
    being read, [skip] the number of characters of a separator just
    found that are still to be passed over. *)
Fixpoint split_from (sep : str) (skip : nat) (cur s : str) : list str :=
  match s with
  | [] => [cur]
  | c :: s' =>
      match skip with
      | S k => split_from sep k cur s'
      | O =>
          if starts_with sep s
          then cur :: split_from sep (List.length sep - 1) [] s'
          else split_from sep 0 (cur ++ [c]) s'
      end
  end.

(** [s.split(sep)]; [None] for the [ValueError] of an empty separator. *)
Definition split (s sep : str) : option (list str) :=
  match sep with
  | [] => None
  | _ :: _ => Some (split_from sep 0 [] s)
  end.

(** [sep.join(l)]. *)
Fixpoint join (sep : str) (l : list str) : str :=
  match l with
  | [] => []
  | [a] => a
  | a :: rest => a ++ sep ++ join sep rest
  end.

(** [enumerate(l)]. *)
Definition enumerate {A} (l : list A) : list (Z * A) :=
  combine (map Z.of_nat (seq 0 (List.length l))) l.

(** [chr(i)]; [None] for the [ValueError] outside [range(0x110000)]. *)
Definition chr (i : Z) : option str :=
  if (0 <=? i) && (i <? 1114112) then Some [i] else None.

(** [get_fiberobj_lst(string, delimiter)], lines 42-55. *)
Definition get_fiberobj_lst (string delimiter : str)
  : option (list (Z * str)) :=
  match split string delimiter with
  | None => None
  | Some pieces =>
      let object_lst := map strip pieces in
      Some (filter (fun v => (0 <? List.length (snd v))%nat)
                   (enumerate object_lst))
  end.

(** Lines 60-70: what one round of [for ifiber in range(nfiber)] appends
    to [result_lst]. *)
Definition fiber_entry (fiberobj_lst : list (Z * str)) (ifiber : Z)
  : option str :=
  match chr (ifiber + 65) with
  | None => None
  | Some fiber =>
      match find (fun fiberobj => fst fiberobj =? ifiber) fiberobj_lst with
      | Some fiberobj =>
          Some (lit "(" ++ fiber ++ lit ") " ++ snd fiberobj)
      | None => Some (lit "(" ++ fiber ++ lit ") ---- ")
      end
  end.

(** [result_lst] at the end of the loop. *)
Definition result_lst (fiberobj_lst : list (Z * str)) (nfiber : Z)
  : option (list str) :=
  Scan.each (fiber_entry fiberobj_lst)
    (map Z.of_nat (seq 0 (Z.to_nat nfiber))).

(** [get_fiberobj_string(fiberobj_lst, nfiber)], lines 57-71. *)
Definition get_fiberobj_string (fiberobj_lst : list (Z * str)) (nfiber : Z)
  : option str :=
  option_map (join (lit " ")) (result_lst fiberobj_lst nfiber).

(** A string that [strip] leaves alone: it neither starts nor ends with
    a space character. *)
Definition stripped (s : str) : Prop :=
  match s with
  | [] => True
  | c :: _ => isspace c = false
  end
  /\ match Py.last_opt s with
     | None => True
     | Some c => isspace c = false
     end.

End Text.

(** ** The spectrum viewer of [edrs/pipelines] *)

Module Viewer.

Local Open Scope string_scope.







End Viewer.

(** ** The entry points of [edrs/pipelines] *)

Module Pipelines.

Import Text.

(** The instrument packages a call can be handed to ([sarg] is imported
    by the module but no branch leads to it). *)
Inductive package : Type := foces | xinglong216hrs | levy.

(** [a == b] on strings. *)
Definition str_eqb (a b : str) : bool :=
  if list_eq_dec Z.eq_dec a b then true else false.

(** [fname[-4:]]: the last four characters, the whole name when it is
    shorter. *)
Definition last4 (fname : str) : str :=
  skipn (List.length fname - 4) fname.

Definition is_cfg (fname : str) : bool := str_eqb (last4 fname) (lit ".cfg").

(** [reduce_echelle], lines 49-50: the list comprehension over
    [os.listdir(os.curdir)]. *)
Definition reduce_echelle_config_file_lst (listdir : list str) : list str :=
  filter is_cfg listdir.

(** [make_log], lines 77-82: the loop with [append]. *)
Definition make_log_config_file_lst (listdir : list str) : list str :=
  fold_left
    (fun config_file_lst fname =>
       if is_cfg fname then config_file_lst ++ [fname] else config_file_lst)
    listdir [].

(** What an entry point ends in. *)
Inductive action : Type :=
| Reduce (p : package)
| MakeLog (p : package) (rawdata : str)
| UnknownInstrument (telescope instrument : str).

(** [reduce_echelle], lines 64-72; the last branch prints and calls
    [exit()]. *)
Definition reduce_echelle (telescope instrument : str) : action :=
  if str_eqb telescope (lit "Fraunhofer") && str_eqb instrument (lit "FOCES")
  then Reduce foces
  else if str_eqb telescope (lit "Xinglong216")
          && str_eqb instrument (lit "HRS")
  then Reduce xinglong216hrs
  else if str_eqb telescope (lit "APF") && str_eqb instrument (lit "Levy")
  then Reduce levy
  else UnknownInstrument telescope instrument.

(** [make_log], lines 96-104. *)
Definition make_log (telescope instrument rawdata : str) : action :=
  if str_eqb telescope (lit "Fraunhofer") && str_eqb instrument (lit "FOCES")
  then MakeLog foces rawdata
  else if str_eqb telescope (lit "Xinglong216")
          && str_eqb instrument (lit "HRS")
  then MakeLog xinglong216hrs rawdata
  else if str_eqb telescope (lit "APF") && str_eqb instrument (lit "Levy")
  then MakeLog levy rawdata
  else UnknownInstrument telescope instrument.

End Pipelines.

(** * Facts about the primitives *)

Module PyFacts.

Lemma Qltb_lt a b : Py.Qltb a b = true <-> (a < b)%Q.
Proof.
  unfold Py.Qltb. rewrite negb_true_iff.
  split; intro H.
  - apply Qnot_le_lt. intro L. apply Qle_bool_iff in L. congruence.
  - destruct (Qle_bool b a) eqn:E; [|reflexivity].
    apply Qle_bool_iff in E. exfalso. exact (Qlt_not_le _ _ H E).
Qed.

Lemma last_opt_app {A} (a : list A) (v : A) : Py.last_opt (a ++ [v]) = Some v.
Proof. unfold Py.last_opt. rewrite rev_app_distr. reflexivity. Qed.

End PyFacts.

(** * Properties of the node sampler *)

Module SamplerFacts.

Import Sampler.

Section Walks.

Variable h : Z.
Variable coeff : list Q.

(** The row the extension polynomial predicts at index [k]. *)
Let predicted (k : Z) : Z := Py.int (Py.polyval coeff (inject_Z k)).

Lemma walk_up_reaches (n : nat) :
  forall ii new_y ia,
    (n = 0%nat -> h - 1 <= new_y) ->
    h - 1 <= predicted (ii + Z.of_nat n) ->
    exists ia', walk_up h n coeff ii new_y ia = Some ia'.
Proof.
  induction n as [|n IH]; intros ii new_y ia H0 Hk; simpl.
  - specialize (H0 eq_refl).
    destruct (new_y <? h - 1) eqn:E; [apply Z.ltb_lt in E; lia|eauto].
  - destruct (new_y <? h - 1) eqn:E; [|eauto].
    apply IH.
    + intros ->. replace (ii + 1) with (ii + Z.of_nat 1) by lia.
      exact Hk.
    + replace (ii + 1 + Z.of_nat n) with (ii + Z.of_nat (S n)) by lia.
      exact Hk.
Qed.

Lemma walk_down_reaches (n : nat) :
  forall ii new_y ia,
    (n = 0%nat -> new_y <= 0) ->
    predicted (ii - Z.of_nat n) <= 0 ->
    exists ia', walk_down n coeff ii new_y ia = Some ia'.
Proof.
  induction n as [|n IH]; intros ii new_y ia H0 Hk; simpl.
  - specialize (H0 eq_refl).
    destruct (0 <? new_y) eqn:E; [apply Z.ltb_lt in E; lia|eauto].
  - destruct (0 <? new_y) eqn:E; [|eauto].
    apply IH.
    + intros ->. replace (ii - 1) with (ii - Z.of_nat 1) by lia.
      exact Hk.
    + replace (ii - 1 - Z.of_nat n) with (ii - Z.of_nat (S n)) by lia.
      exact Hk.
Qed.

Lemma walk_up_more_fuel (n : nat) :
  forall m ii new_y ia r,
    (n <= m)%nat ->
    walk_up h n coeff ii new_y ia = Some r ->
    walk_up h m coeff ii new_y ia = Some r.
Proof.
  induction n as [|n IH]; intros m ii new_y ia r Hle; simpl.
  - destruct (new_y <? h - 1) eqn:E; [discriminate|].
    intros H. destruct m; simpl; rewrite E; exact H.
  - destruct m as [|m]; [lia|]. simpl.
    destruct (new_y <? h - 1); [|auto].
    apply IH. lia.
Qed.

Lemma walk_down_more_fuel (n : nat) :
  forall m ii new_y ia r,
    (n <= m)%nat ->
    walk_down n coeff ii new_y ia = Some r ->
    walk_down m coeff ii new_y ia = Some r.
Proof.
  induction n as [|n IH]; intros m ii new_y ia r Hle; simpl.
  - destruct (0 <? new_y) eqn:E; [discriminate|].
    intros H. destruct m; simpl; rewrite E; exact H.
  - destruct m as [|m]; [lia|]. simpl.
    destruct (0 <? new_y); [|auto].
    apply IH. lia.
Qed.

End Walks.

Lemma last_opt_nonempty {A} (a : list A) :
  a <> [] -> exists v, Py.last_opt a = Some v.
Proof.
  intros Hne. unfold Py.last_opt.
  destruct (rev a) as [|v r] eqn:E; [|eauto].
  exfalso. apply Hne. rewrite <- (rev_involutive a), E. reflexivity.
Qed.

(** The extension of a column comes to an end as soon as the fitted
    cubic predicts a row at or above [h-1] at some index past the last
    node and a row at or below [0] at some negative index. *)
Lemma extend_grid_exits h polyfit3 ia (kup kdown : nat) :
  ia <> [] ->
  (0 < kup)%nat -> (0 < kdown)%nat ->
  h - 1 <= Py.int (Py.polyval (polyfit3 ia)
                     (inject_Z (Z.of_nat (List.length ia) - 1 + Z.of_nat kup))) ->
  Py.int (Py.polyval (polyfit3 ia) (inject_Z (0 - Z.of_nat kdown))) <= 0 ->
  exists fuel rows, extend_grid h polyfit3 fuel ia = Done rows.
Proof.
  intros Hne Hup Hdown Hu Hd.
  destruct (last_opt_nonempty ia Hne) as [lst Hl].
  destruct (walk_up_reaches h (polyfit3 ia) kup
              (Z.of_nat (List.length ia) - 1) lst ia) as [ia1 H1];
    [lia | exact Hu |].
  destruct (walk_down_reaches (polyfit3 ia) kdown 0 (hd 0 ia1) ia1)
    as [ia2 H2]; [lia | exact Hd |].
  exists (Nat.max kup kdown), ia2.
  unfold extend_grid. rewrite Hl.
  rewrite (walk_up_more_fuel h _ kup (Nat.max kup kdown) _ _ _ ia1);
    [| lia | exact H1].
  rewrite (walk_down_more_fuel _ kdown (Nat.max kup kdown) _ _ _ ia2);
    [reflexivity | lia | exact H2].
Qed.

(** *** A column whose upward walk never leaves the frame *)

Lemma cubic_down_predicts k :
  Py.int (Py.polyval Examples.cubic_down (inject_Z k))
  = - (k * k * k) + 100 * k + 100.
Proof.
  cbv [Py.int Py.polyval Examples.cubic_down fold_left Qmult Qplus
       inject_Z Qnum Qden Pos.mul].
  rewrite Z.quot_1_r. ring.
Qed.

Lemma cubic_down_below k : 0 <= k -> - (k * k * k) + 100 * k + 100 < 999.
Proof.
  intros Hk.
  destruct (Z_lt_le_dec k 10) as [Hlt|Hge].
  - assert (Hc : k = 0 \/ k = 1 \/ k = 2 \/ k = 3 \/ k = 4 \/ k = 5 \/
                 k = 6 \/ k = 7 \/ k = 8 \/ k = 9) by lia.
    repeat (destruct Hc as [-> | Hc]; [vm_compute; reflexivity|]).
    subst k. vm_compute. reflexivity.
  - assert (100 <= k * k) by nia.
    assert (100 * k <= k * k * k) by nia.
    lia.
Qed.

Lemma walk_up_cubic_down_stuck fuel :
  forall ii new_y ia,
    0 <= ii -> new_y < 999 ->
    walk_up 1000 fuel Examples.cubic_down ii new_y ia = None.
Proof.
  induction fuel as [|fuel IH]; intros ii new_y ia Hii Hy; simpl;
    replace (new_y <? 999) with true by (symmetry; apply Z.ltb_lt; lia).
  - reflexivity.
  - apply IH; [lia|].
    rewrite cubic_down_predicts. apply cubic_down_below. lia.
Qed.

(** C1, as stated, fails: the cubic through the node rows 100, 199, 292,
    373 of a 1000-row frame peaks at row 484, so the upward walk of
    [extend_grid] is still running after any number of steps. *)
Lemma C1_extension_walk_never_exits :
  map (fun i => Py.int (Py.polyval Examples.cubic_down (inject_Z i)))
      [0; 1; 2; 3] = Examples.rows_down
  /\ ~ exists fuel,
        extend_grid 1000 (fun _ => Examples.cubic_down) fuel
          Examples.rows_down <> Timeout.
Proof.
  split; [vm_compute; reflexivity|].
  intros [fuel H]. apply H.
  assert (E : Py.last_opt Examples.rows_down = Some 373) by reflexivity.
  unfold extend_grid. rewrite E.
  rewrite walk_up_cubic_down_stuck; [reflexivity | simpl; lia | lia].
Qed.

(** *** Backward points that survive the filter *)

(** C4: on the 350-row column of [Examples], scanned with
    [scan_step = 50] and [extend = True], the sampler finds the rows 10,
    147, 230, 271, extends them along the cubic through them and returns
    the rows 10, 147, 230, 271, 282, 266, 307, which are not increasing. *)
Theorem C4_backward_point_survives :
  find_inter_aper 350 50 Examples.column_dip 0 [Examples.fiber_dip] 0 4
    = Examples.rows_dip
  /\ map (fun i => Py.int (Py.polyval Examples.cubic_dip (inject_Z i)))
         [0; 1; 2; 3] = Examples.rows_dip
  /\ column_rows 350 (fun _ => Examples.cubic_dip) 7 true Examples.rows_dip
     = Done [10; 147; 230; 271; 282; 266; 307]
  /\ ~ StronglySorted Z.lt [10; 147; 230; 271; 282; 266; 307].
Proof.
  split; [vm_compute; reflexivity|].
  split; [vm_compute; reflexivity|].
  split; [vm_compute; reflexivity|].
  intros H.
  do 4 (apply StronglySorted_inv in H; destruct H as [H _]).
  apply StronglySorted_inv in H. destruct H as [_ H].
  apply Forall_inv in H. lia.
Qed.

(** The filter alone: [9, 3, 5] keeps 9 and 5. *)
Example remove_backward_9_3_5 : remove_backward [9; 3; 5] = [9; 5].
Proof. reflexivity. Qed.

(** *** How order centers are paired *)

Lemma last_cons {A} (c d : A) cs : last (c :: cs) d = last cs c.
Proof.
  revert c d. induction cs as [|c' cs IH]; intros c d; [reflexivity|].
  change (last (c :: c' :: cs) d) with (last (c' :: cs) d).
  rewrite IH. symmetry. apply IH.
Qed.

Section Pairing.

Variable h : Z.
Variable scan_step : Z.
Variable xsection : list Q.
Variable x : Z.

(** Once a channel of the aperture has been seen, further channels only
    move [prev_newy]. *)
Lemma scan_channels_counted sets aper :
  forall cnt st,
    (0 < cnt)%nat ->
    scan_channels h scan_step xsection x sets aper cnt st =
    match SamplerSpec.centers_at x sets aper with
    | [] => st
    | c :: cs =>
        {| inter_aper := inter_aper st; prev_newy := Some (last cs c) |}
    end.
Proof.
  induction sets as [|s sets IH]; intros cnt st Hc; simpl; [reflexivity|].
  destruct (lookup aper s) as [f|]; simpl.
  - destruct cnt as [|cnt]; [lia|].
    rewrite IH by lia. simpl.
    destruct (SamplerSpec.centers_at x sets aper) as [|c cs] eqn:E;
      [reflexivity|].
    rewrite last_cons. reflexivity.
  - apply IH. exact Hc.
Qed.

Lemma scan_channels_first sets aper :
  forall st,
    scan_channels h scan_step xsection x sets aper 0 st =
    match SamplerSpec.centers_at x sets aper with
    | [] => st
    | c :: cs =>
        {| inter_aper :=
             match prev_newy st with
             | Some p => mark_gap h scan_step xsection p c (inter_aper st)
             | None => inter_aper st
             end;
           prev_newy := Some (last cs c) |}
    end.
Proof.
  induction sets as [|s sets IH]; intros st; simpl; [reflexivity|].
  destruct (lookup aper s) as [f|]; simpl.
  - rewrite scan_channels_counted by lia. simpl.
    destruct (SamplerSpec.centers_at x sets aper) as [|c cs] eqn:E.
    + destruct (prev_newy st); reflexivity.
    + rewrite last_cons. destruct (prev_newy st); reflexivity.
  - apply IH.
Qed.

Lemma scan_apertures_across sets n :
  forall aper st,
    inter_aper (scan_apertures h scan_step xsection x sets aper n st) =
    SamplerSpec.across_apertures h scan_step xsection
      (map (fun k => SamplerSpec.centers_at x sets (aper + Z.of_nat k))
           (seq 0 n))
      (prev_newy st) (inter_aper st).
Proof.
  induction n as [|n IH]; intros aper st; [reflexivity|].
  cbn [scan_apertures]. rewrite IH.
  change (seq 0 (S n)) with (0%nat :: seq 1 n).
  rewrite <- (seq_shift n 0). cbn [map]. rewrite map_map.
  replace (aper + Z.of_nat 0) with aper by lia.
  rewrite scan_channels_first.
  assert (Hm : map (fun k => SamplerSpec.centers_at x sets
                               (aper + 1 + Z.of_nat k)) (seq 0 n)
             = map (fun k => SamplerSpec.centers_at x sets
                               (aper + Z.of_nat (S k))) (seq 0 n)).
  { apply map_ext. intros k. f_equal. lia. }
  rewrite Hm.
  cbn [SamplerSpec.across_apertures].
  destruct (SamplerSpec.centers_at x sets aper) as [|c cs]; reflexivity.
Qed.

End Pairing.

(** *** The row recorded for a gap *)

Lemma argmin_from_spec a :
  forall best ibest i,
    exists v,
      ((Py.argmin_from best ibest i a = ibest /\ v = best)
       \/ (i <= Py.argmin_from best ibest i a < i + Z.of_nat (List.length a)
           /\ nth (Z.to_nat (Py.argmin_from best ibest i a - i)) a 0%Q = v))
      /\ (v <= best)%Q /\ Forall (Qle v) a.
Proof.
  induction a as [|u a IH]; intros best ibest i.
  - exists best. split; [left; split; reflexivity|].
    split; [apply Qle_refl | constructor].
  - cbn [Py.argmin_from]. destruct (Py.Qltb u best) eqn:E.
    + apply PyFacts.Qltb_lt in E.
      destruct (IH u i (i + 1)) as [v [Hpos [Hle Hall]]].
      exists v. split; [right|split].
      * destruct Hpos as [[Hr Hv] | [Hr Hv]].
        -- rewrite Hr. split; [cbn [List.length]; lia|].
           replace (i - i) with 0 by lia. subst v. reflexivity.
        -- split; [cbn [List.length]; lia|].
           replace (Z.to_nat (Py.argmin_from u i (i + 1) a - i))
             with (S (Z.to_nat (Py.argmin_from u i (i + 1) a - (i + 1))))
             by lia.
           exact Hv.
      * apply Qle_trans with u; [exact Hle | apply Qlt_le_weak; exact E].
      * constructor; assumption.
    + assert (Hbu : (best <= u)%Q).
      { apply Qnot_lt_le. intro L. apply PyFacts.Qltb_lt in L. congruence. }
      destruct (IH best ibest (i + 1)) as [v [Hpos [Hle Hall]]].
      exists v. split; [|split].
      * destruct Hpos as [[Hr Hv] | [Hr Hv]]; [left; split; assumption|].
        right. split; [cbn [List.length]; lia|].
        replace (Z.to_nat (Py.argmin_from best ibest (i + 1) a - i))
          with (S (Z.to_nat (Py.argmin_from best ibest (i + 1) a - (i + 1))))
          by lia.
        exact Hv.
      * exact Hle.
      * constructor; [apply Qle_trans with best; assumption | assumption].
Qed.

Lemma argmin_spec a :
  a <> [] ->
  0 <= Py.argmin a < Z.of_nat (List.length a)
  /\ Forall (Qle (nth (Z.to_nat (Py.argmin a)) a 0%Q)) a.
Proof.
  destruct a as [|u a]; [congruence|]. intros _.
  unfold Py.argmin.
  destruct (argmin_from_spec a u 0 1) as [v [Hpos [Hle Hall]]].
  destruct Hpos as [[Hr Hv] | [Hr Hv]].
  - rewrite Hr. subst v. split; [cbn [List.length]; lia|].
    constructor; [apply Qle_refl | exact Hall].
  - split; [cbn [List.length]; lia|].
    replace (Z.to_nat (Py.argmin_from u 0 1 a))
      with (S (Z.to_nat (Py.argmin_from u 0 1 a - 1))) by lia.
    cbn [nth]. rewrite Hv.
    constructor; assumption.
Qed.

Lemma argmin_from_first a :
  forall best ibest i,
    (Py.argmin_from best ibest i a = ibest /\ Forall (Qle best) a)
    \/ exists k,
         (k < List.length a)%nat
         /\ Py.argmin_from best ibest i a = i + Z.of_nat k
         /\ (nth k a 0 < best)%Q
         /\ forall j, (j < k)%nat -> (nth k a 0 < nth j a 0)%Q.
Proof.
  induction a as [|u a IH]; intros best ibest i.
  - left. split; [reflexivity | constructor].
  - cbn [Py.argmin_from]. destruct (Py.Qltb u best) eqn:E.
    + apply PyFacts.Qltb_lt in E. right.
      destruct (IH u i (i + 1)) as [[Hr Hall] | [k [Hk [Hr [Hlt Hfirst]]]]].
      * exists 0%nat. cbn [List.length nth].
        split; [lia|]. split; [rewrite Hr; lia|].
        split; [exact E|]. intros j Hj. lia.
      * exists (S k). cbn [List.length nth].
        split; [lia|]. split; [rewrite Hr; lia|].
        split; [apply Qlt_trans with u; assumption|].
        intros [|j] Hj; [exact Hlt | apply Hfirst; lia].
    + assert (Hbu : (best <= u)%Q).
      { apply Qnot_lt_le. intro L. apply PyFacts.Qltb_lt in L. congruence. }
      destruct (IH best ibest (i + 1))
        as [[Hr Hall] | [k [Hk [Hr [Hlt Hfirst]]]]].
      * left. split; [exact Hr | constructor; assumption].
      * right. exists (S k). cbn [List.length nth].
        split; [lia|]. split; [rewrite Hr; lia|].
        split; [exact Hlt|].
        intros [|j] Hj;
          [apply Qlt_le_trans with best; assumption | apply Hfirst; lia].
Qed.

(** [argmin] is the first index of the minimum: every earlier entry is
    strictly larger. *)
Lemma argmin_first a j :
  (j < Z.to_nat (Py.argmin a))%nat ->
  (nth (Z.to_nat (Py.argmin a)) a 0 < nth j a 0)%Q.
Proof.
  destruct a as [|u a]; [cbn; lia|]. unfold Py.argmin.
  destruct (argmin_from_first a u 0 1)
    as [[Hr Hall] | [k [Hk [Hr [Hlt Hfirst]]]]].
  - rewrite Hr. cbn. lia.
  - rewrite Hr. replace (Z.to_nat (1 + Z.of_nat k)) with (S k) by lia.
    cbn [nth]. intros Hj.
    destruct j as [|j]; [exact Hlt | apply Hfirst; lia].
Qed.

Lemma slice_length {A} (a : list A) i1 i2 :
  0 <= i1 -> i1 <= i2 -> i2 <= Z.of_nat (List.length a) ->
  List.length (Py.slice a i1 i2) = Z.to_nat (i2 - i1).
Proof.
  intros H1 H12 H2. unfold Py.slice.
  rewrite length_firstn, length_skipn. lia.
Qed.

Lemma slice_nth {A} (a : list A) i1 i2 k d :
  0 <= i1 -> (k < Z.to_nat (i2 - i1))%nat ->
  nth k (Py.slice a i1 i2) d = nth (Z.to_nat i1 + k) a d.
Proof.
  intros H1 Hk. unfold Py.slice.
  rewrite nth_firstn.
  destruct (k <? Z.to_nat (i2 - i1))%nat eqn:E.
  - apply nth_skipn.
  - apply Nat.ltb_ge in E. lia.
Qed.

Section Gap.

Variable h : Z.
Variable scan_step : Z.
Variable xsection : list Q.
Hypothesis column_height : Z.of_nat (List.length xsection) = h.

Lemma mark_gap_skips prev this ia l :
  Py.last_opt ia = Some l ->
  (inject_Z (Z.abs (Py.int ((prev + this) / 2) - l))
   <= inject_Z scan_step * (6 # 10))%Q ->
  mark_gap h scan_step xsection prev this ia = ia.
Proof.
  intros Hl Hnear. unfold mark_gap. rewrite Hl.
  destruct (Py.Qltb _ _) eqn:E; [|reflexivity].
  apply PyFacts.Qltb_lt in E. exfalso. exact (Qlt_not_le _ _ E Hnear).
Qed.

Lemma mark_gap_empty prev this ia :
  clamp_row h this <= clamp_row h prev ->
  mark_gap h scan_step xsection prev this ia = ia.
Proof.
  intros Hle. unfold mark_gap.
  replace (0 <? clamp_row h this - clamp_row h prev) with false
    by (symmetry; apply Z.ltb_ge; lia).
  destruct (match Py.last_opt ia with Some _ => _ | None => _ end);
    reflexivity.
Qed.

Lemma mark_gap_records prev this ia :
  mark_gap h scan_step xsection prev this ia = ia
  \/ exists r,
       mark_gap h scan_step xsection prev this ia = ia ++ [r]
       /\ clamp_row h prev <= r < clamp_row h this
       /\ forall j, clamp_row h prev <= j < clamp_row h this ->
                    (nth (Z.to_nat r) xsection 0 <= nth (Z.to_nat j) xsection 0)%Q.
Proof.
  unfold mark_gap.
  destruct (match Py.last_opt ia with Some _ => _ | None => _ end);
    [|left; reflexivity].
  destruct (0 <? clamp_row h this - clamp_row h prev) eqn:E;
    [|left; reflexivity].
  apply Z.ltb_lt in E. right.
  set (i1 := clamp_row h prev) in *. set (i2 := clamp_row h this) in *.
  assert (Hb : 0 <= i1 /\ i2 <= h - 1).
  { subst i1 i2. unfold clamp_row in *. lia. }
  assert (Hlen : List.length (Py.slice xsection i1 i2) = Z.to_nat (i2 - i1)).
  { apply slice_length; lia. }
  destruct (argmin_spec (Py.slice xsection i1 i2)) as [Hr Hmin].
  { intros Hnil. rewrite Hnil in Hlen. cbn in Hlen. lia. }
  rewrite Hlen in Hr.
  exists (i1 + Py.argmin (Py.slice xsection i1 i2)).
  split; [reflexivity|]. split; [lia|].
  intros j Hj.
  rewrite Forall_forall in Hmin.
  rewrite slice_nth in Hmin by lia.
  replace (Z.to_nat (i1 + Py.argmin (Py.slice xsection i1 i2)))
    with (Z.to_nat i1 + Z.to_nat (Py.argmin (Py.slice xsection i1 i2)))%nat
    by lia.
  apply Hmin.
  replace (Z.to_nat j) with (Z.to_nat i1 + Z.to_nat (j - i1))%nat by lia.
  rewrite <- (slice_nth xsection i1 i2) by lia.
  apply nth_In. rewrite Hlen. lia.
Qed.

(** A pair that is far enough from the row recorded last and whose gap
    is not empty records the first row of least intensity of the gap. *)
Lemma mark_gap_first_minimum prev this ia :
  ~ (exists l,
        Py.last_opt ia = Some l
        /\ (inject_Z (Z.abs (Py.int ((prev + this) / 2) - l))
            <= inject_Z scan_step * (6 # 10))%Q) ->
  clamp_row h prev < clamp_row h this ->
  exists r,
    mark_gap h scan_step xsection prev this ia = ia ++ [r]
    /\ clamp_row h prev <= r < clamp_row h this
    /\ (forall j, clamp_row h prev <= j < clamp_row h this ->
                  (nth (Z.to_nat r) xsection 0 <= nth (Z.to_nat j) xsection 0)%Q)
    /\ (forall j, clamp_row h prev <= j < r ->
                  (nth (Z.to_nat r) xsection 0 < nth (Z.to_nat j) xsection 0)%Q).
Proof.
  intros Hfar Hgap.
  destruct (mark_gap_records prev this ia) as [Hsame | [r [Hr [Hin Hmin]]]].
  - exfalso. revert Hsame. unfold mark_gap.
    replace (0 <? clamp_row h this - clamp_row h prev) with true
      by (symmetry; apply Z.ltb_lt; lia).
    assert (Hne : forall r0, ia ++ [r0] <> ia).
    { intros r0 H. apply (f_equal (@List.length Z)) in H.
      rewrite length_app in H. cbn in H. lia. }
    destruct (Py.last_opt ia) as [l|] eqn:El; [|apply Hne].
    destruct (Py.Qltb _ _) eqn:E; [apply Hne|].
    exfalso. apply Hfar. exists l. split; [reflexivity|].
    apply Qnot_lt_le. intro L. apply PyFacts.Qltb_lt in L. congruence.
  - exists r. split; [exact Hr|]. split; [exact Hin|]. split; [exact Hmin|].
    assert (Hrow : r = clamp_row h prev
                       + Py.argmin (Py.slice xsection (clamp_row h prev)
                                      (clamp_row h this))).
    { revert Hr. unfold mark_gap.
      destruct (match Py.last_opt ia with Some _ => _ | None => _ end).
      - destruct (0 <? clamp_row h this - clamp_row h prev).
        + intros H. apply app_inv_head in H. injection H as H.
          symmetry. exact H.
        + intros H. apply (f_equal (@List.length Z)) in H.
          rewrite length_app in H. cbn in H. lia.
      - intros H. apply (f_equal (@List.length Z)) in H.
        rewrite length_app in H. cbn in H. lia. }
    set (i1 := clamp_row h prev) in *. set (i2 := clamp_row h this) in *.
    assert (Hb : 0 <= i1 /\ i2 <= h - 1).
    { subst i1 i2. unfold clamp_row in *. lia. }
    intros j Hj.
    pose proof (argmin_first (Py.slice xsection i1 i2) (Z.to_nat (j - i1)))
      as Hf.
    rewrite !slice_nth in Hf by lia.
    replace (Z.to_nat i1 + Z.to_nat (Py.argmin (Py.slice xsection i1 i2)))%nat
      with (Z.to_nat r) in Hf by lia.
    replace (Z.to_nat i1 + Z.to_nat (j - i1))%nat with (Z.to_nat j) in Hf
      by lia.
    apply Hf. lia.
Qed.

End Gap.

(** C8, as stated, fails in three ways.
    - Pairs inside an aperture are not sampled.  On a double-fiber column
      the centers are met in the order 10 (A, order 0), 20 (B, order 0),
      30 (A, order 1), 40 (B, order 1); pairing every two neighbours
      would record a row in each of the three gaps, the sampler records
      one only, between 20 and 30.
    - The minimum is searched over the whole gap, not near the midpoint.
      Between the centers 5 and 100 (midpoint 52) of a column whose
      intensity is lowest at row 10, the sampler records row 10: no
      neighbourhood of the midpoint smaller than 42 rows holds it.
    - The distance is taken to the row recorded last, not to the midpoint
      accepted last.  With [scan_step = 10], centers 0, 20 and 28 and the
      lowest intensity at row 19: the first pair (midpoint 10) records row
      19; the second pair has its midpoint 24 at 14 rows from the
      midpoint accepted before, but at 5 rows from row 19, and is
      skipped. *)
Lemma C8_sampler_departs_from_the_wording :
  (SamplerSpec.claimed_inter_aper 50 10 Examples.column_flat 0
     [Examples.fiber_A; Examples.fiber_B] 0 1 = [10; 20; 30]
   /\ find_inter_aper 50 10 Examples.column_flat 0
        [Examples.fiber_A; Examples.fiber_B] 0 1 = [20])
  /\ (find_inter_aper 350 50 Examples.column_dip 0 [Examples.fiber_dip] 0 4
      = [10; 147; 230; 271]
      /\ Py.int (((5 # 1) + (100 # 1)) / 2) = 52
      /\ forall radius,
           0 <= radius < 42 ->
           SamplerSpec.neighbourhood_minimum 350 Examples.column_dip radius
             (5 # 1) (100 # 1) <> 10)
  /\ (find_inter_aper 40 10 Examples.column_low19 0 [Examples.fiber_near] 0 2
      = [19]
      /\ SamplerSpec.by_accepted_midpoint 40 10 Examples.column_low19
           [(0 # 1, 20 # 1); (20 # 1, 28 # 1)] None []
         = [19; 20]).
Proof.
  split; [split; vm_compute; reflexivity|].
  split.
  - split; [vm_compute; reflexivity|].
    split; [vm_compute; reflexivity|].
    intros radius Hr.
    assert (H : forallb
                  (fun k =>
                     negb (SamplerSpec.neighbourhood_minimum 350
                             Examples.column_dip (Z.of_nat k) (5 # 1)
                             (100 # 1) =? 10))
                  (seq 0 42) = true)
      by (vm_compute; reflexivity).
    rewrite forallb_forall in H.
    specialize (H (Z.to_nat radius)).
    rewrite Z2Nat.id in H by lia.
    intros E. rewrite E in H.
    assert (In (Z.to_nat radius) (seq 0 42)) as Hin by (apply in_seq; lia).
    specialize (H Hin). discriminate H.
  - split; vm_compute; reflexivity.
Qed.

(** C8, amended: the sampler pairs the first center of each aperture with
    the center met last before it.  For such a pair it records nothing
    when the midpoint is within [0.6 * scan_step] of the row recorded
    last or when the gap between the clamped centers is empty; in every
    other case it records one row, the first row of least intensity of
    the gap. *)
Theorem C8_gap_minimum_across_apertures
    h scan_step xsection x sets min_aper max_aper :
  Z.of_nat (List.length xsection) = h ->
  find_inter_aper h scan_step xsection x sets min_aper max_aper
  = SamplerSpec.across_apertures h scan_step xsection
      (SamplerSpec.centers_by_aperture x sets min_aper max_aper) None []
  /\ forall prev this ia,
       let near :=
         exists l,
           Py.last_opt ia = Some l
           /\ (inject_Z (Z.abs (Py.int ((prev + this) / 2) - l))
               <= inject_Z scan_step * (6 # 10))%Q in
       (near \/ clamp_row h this <= clamp_row h prev ->
        mark_gap h scan_step xsection prev this ia = ia)
       /\ (~ near ->
           clamp_row h prev < clamp_row h this ->
           exists r,
             mark_gap h scan_step xsection prev this ia = ia ++ [r]
             /\ clamp_row h prev <= r < clamp_row h this
             /\ (forall j,
                   clamp_row h prev <= j < clamp_row h this ->
                   (nth (Z.to_nat r) xsection 0
                    <= nth (Z.to_nat j) xsection 0)%Q)
             /\ (forall j,
                   clamp_row h prev <= j < r ->
                   (nth (Z.to_nat r) xsection 0
                    < nth (Z.to_nat j) xsection 0)%Q)).
Proof.
  intros Hh. split.
  - unfold find_inter_aper, SamplerSpec.centers_by_aperture.
    rewrite scan_apertures_across. reflexivity.
  - intros prev this ia. cbv zeta. split.
    + intros [[l [Hl Hnear]] | Hempty].
      * apply (mark_gap_skips h scan_step xsection prev this ia l Hl Hnear).
      * apply mark_gap_empty. exact Hempty.
    + apply mark_gap_first_minimum. exact Hh.
Qed.

(** The column of [Examples.column_dip]: the pairing, and the row
    recorded between the centers 5 and 100. *)
Lemma C8_gap_minimum_witness :
  find_inter_aper 350 50 Examples.column_dip 0 [Examples.fiber_dip] 0 4
  = SamplerSpec.across_apertures 350 50 Examples.column_dip
      (SamplerSpec.centers_by_aperture 0 [Examples.fiber_dip] 0 4) None []
  /\ exists r,
       mark_gap 350 50 Examples.column_dip (5 # 1) (100 # 1) [] = [] ++ [r]
       /\ clamp_row 350 (5 # 1) <= r < clamp_row 350 (100 # 1)
       /\ (forall j,
             clamp_row 350 (5 # 1) <= j < clamp_row 350 (100 # 1) ->
             (nth (Z.to_nat r) Examples.column_dip 0
              <= nth (Z.to_nat j) Examples.column_dip 0)%Q)
       /\ (forall j,
             clamp_row 350 (5 # 1) <= j < r ->
             (nth (Z.to_nat r) Examples.column_dip 0
              < nth (Z.to_nat j) Examples.column_dip 0)%Q).
Proof.
  destruct (C8_gap_minimum_across_apertures 350 50 Examples.column_dip 0
              [Examples.fiber_dip] 0 4 eq_refl) as [Hpairs Hgap].
  split; [exact Hpairs|].
  apply (proj2 (Hgap (5 # 1) (100 # 1) [])).
  - intros [l [Hl _]]. discriminate Hl.
  - vm_compute. reflexivity.
Defined.

End SamplerFacts.

(** * Properties of the sigma-clipped fit *)

Module FitFacts.

Import Fit.

Lemma mul_mask_map {A} (f g : A -> bool) (l : list A) :
  mul_mask (map f l) (map g l) = map (fun v => f v && g v) l.
Proof.
  induction l as [|v l IH]; [reflexivity|].
  cbn [map mul_mask]. rewrite IH. reflexivity.
Qed.

Section Loop.

Variable Coeff : Type.
Variable polyfit2d : list Q -> list Q -> list Q -> Z -> Z -> Coeff.
Variable polyval2d : list Q -> list Q -> Coeff -> list Q.
Variable std : list Q -> Q.
Variables (xfit yfit zfit : list Q).
Variables (xorder yorder : Z).
Variables (upper_clip lower_clip : Q).

Let loop :=
  fit_loop Coeff polyfit2d polyval2d std xfit yfit zfit xorder yorder
    upper_clip lower_clip.
Let fit := fit_on Coeff polyfit2d xfit yfit zfit xorder yorder.
Let clipped :=
  clip Coeff polyval2d std xfit yfit zfit upper_clip lower_clip.
Let spec_round :=
  FitSpec.round Coeff polyfit2d polyval2d std xfit yfit zfit xorder yorder
    upper_clip lower_clip.

(** The clipped mask of the source is the accepted set of the
    specification. *)
Lemma round_is_fit_and_clip m : spec_round m = (fit m, clipped (fit m) m).
Proof.
  unfold spec_round, FitSpec.round, fit, clipped, clip, fit_on,
    sigma_of, residuals_of.
  f_equal. rewrite mul_mask_map. apply map_ext.
  intros r. unfold FitSpec.accept. apply andb_comm.
Qed.

(** Every round writes one line of the log. *)
Lemma loop_log_bound rounds :
  forall niter st,
    (List.length (_messages (fst (loop rounds niter st)))
     <= List.length (_messages st) + rounds)%nat.
Proof.
  induction rounds as [|rounds IH]; intros niter st; cbn.
  - lia.
  - destruct (Nat.eqb _ _); cbn.
    + rewrite length_app. cbn. lia.
    + eapply Nat.le_trans; [apply IH|]. cbn. rewrite length_app. cbn. lia.
Qed.

(** The loop of the source runs the rounds of the specification, with
    the count test as the early exit. *)
Lemma loop_refines rounds :
  forall niter st,
    (coeff (fst (loop rounds niter st)), mask (fst (loop rounds niter st)))
    = FitSpec.rounds_with Coeff polyfit2d polyval2d std xfit yfit zfit
        xorder yorder upper_clip lower_clip FitSpec.count_unchanged
        rounds (coeff st) (mask st).
Proof.
  induction rounds as [|rounds IH]; intros niter st; [reflexivity|].
  cbn [FitSpec.rounds_with].
  fold spec_round. rewrite round_is_fit_and_clip.
  unfold FitSpec.count_unchanged.
  cbn [loop fit_loop]. fold fit. fold clipped.
  destruct (Nat.eqb (Py.count (clipped (fit (mask st)) (mask st)))
                    (Py.count (mask st))); [reflexivity|].
  apply IH.
Qed.


(** What the state looks like after a [break]. *)
Lemma loop_break rounds :
  forall niter st st',
    loop rounds niter st = (st', true) ->
    coeff st' = Some (fit (mask st'))
    /\ Py.count (clipped (fit (mask st')) (mask st')) = Py.count (mask st')
    /\ exists log m, _messages st' = log ++ [m] /\ msg_N m = msg_Nnew m.
Proof.
  induction rounds as [|rounds IH]; intros niter st st'; cbn.
  - discriminate.
  - fold fit. fold clipped.
    destruct (Nat.eqb _ _) eqn:E.
    + intros H. inversion H; subst; clear H. cbn.
      apply Nat.eqb_eq in E.
      split; [reflexivity|]. split; [exact E|].
      eexists _, _. split; [reflexivity|]. cbn. symmetry. exact E.
    + apply IH.
Qed.

(** What the log looks like when the rounds ran out. *)
Lemma loop_exhausted rounds :
  forall niter st st',
    loop rounds niter st = (st', false) ->
    _messages st' = _messages st
    \/ exists log m, _messages st' = log ++ [m] /\ msg_N m <> msg_Nnew m.
Proof.
  induction rounds as [|rounds IH]; intros niter st st'; cbn.
  - intros H. inversion H. left. reflexivity.
  - fold fit. fold clipped.
    destruct (Nat.eqb _ _) eqn:E; [discriminate|].
    intros H. apply IH in H. cbn in H.
    destruct H as [H | H]; [|right; exact H].
    right. eexists _, _. split; [exact H|]. cbn.
    apply Nat.eqb_neq in E. intros Heq. apply E. symmetry. exact Heq.
Qed.

(** A run from an empty log has converged exactly when it broke out. *)
Lemma converged_iff_break maxiter mask0 :
  let r := run_from Coeff polyfit2d polyval2d std xfit yfit zfit xorder
             yorder upper_clip lower_clip maxiter mask0 in
  FitSpec.converged (_messages (fst r)) <-> snd r = true.
Proof.
  cbn zeta. unfold run_from. fold loop.
  destruct (loop maxiter 0%nat _) as [st' b] eqn:E. cbn [fst snd].
  unfold FitSpec.converged. destruct b.
  - apply loop_break in E. destruct E as [_ [_ [log [m [Hl Hm]]]]].
    rewrite Hl, PyFacts.last_opt_app. tauto.
  - apply loop_exhausted in E. cbn in E. destruct E as [E | [log [m [Hl Hm]]]].
    + rewrite E. cbn. split; [tauto | discriminate].
    + rewrite Hl, PyFacts.last_opt_app. split; [tauto | discriminate].
Qed.

(** One more run from the mask of a run that broke out breaks out in its
    first round, with the same coefficients and the same mask. *)
Lemma rerun_after_break rounds niter st st' rounds' niter' c0 log0 :
  loop rounds niter st = (st', true) ->
  (0 < rounds')%nat ->
  exists log',
    loop rounds' niter' {| coeff := c0; mask := mask st'; _messages := log0 |}
    = ({| coeff := coeff st'; mask := mask st'; _messages := log' |}, true).
Proof.
  intros H Hpos. apply loop_break in H. destruct H as [Hc [Hn _]].
  destruct rounds' as [|rounds']; [lia|]. cbn. fold fit. fold clipped.
  rewrite Hn, Nat.eqb_refl, Hc. eexists. reflexivity.
Qed.

End Loop.

(** A run writes at most [maxiter] lines. *)
Lemma run_log_bound
    (Coeff : Type)
    (polyfit2d : list Q -> list Q -> list Q -> Z -> Z -> Coeff)
    (polyval2d : list Q -> list Q -> Coeff -> list Q)
    (std : list Q -> Q)
    (xfit yfit zfit : list Q) (xorder yorder : Z)
    (upper_clip lower_clip : Q) (maxiter : nat) (mask0 : list bool) :
  (List.length
     (_messages
        (fst (run_from Coeff polyfit2d polyval2d std xfit yfit zfit xorder
                yorder upper_clip lower_clip maxiter mask0)))
   <= maxiter)%nat.
Proof.
  unfold run_from.
  eapply Nat.le_trans; [apply loop_log_bound|]. cbn. lia.
Qed.

(** C3, as stated, fails.  Six nodes with intensities 0, 0, 3, 4, 19, 22
    are fitted at degree (0,0) with [upper_clip = 1.5], [lower_clip = 0.5]
    and [maxiter = 3].  Round 0 (mean 8, sigma 9) accepts the nodes 4 and
    19; round 1 (mean 11.5, sigma 7.5) accepts the nodes 19 and 22: the
    accepted set has changed, the count has not, and the source stops
    with the mask (4, 19) and the coefficient 11.5, where rounds that
    stop on an unchanged set go on and end with 20.5 and the node 22. *)
Lemma C3_stops_although_set_changed :
  let xfit := normalize Examples.six_x 2 in
  let yfit := normalize Examples.six_y 8 in
  let run :=
    run_from (list Q) Numerics.polyfit2d_const Numerics.polyval2d_const
      Numerics.std xfit yfit Examples.six_z 0 0 (3 # 2) (1 # 2) 3
      (ones_like Examples.six_z) in
  (coeff (fst run), mask (fst run))
    = (Some [23 # 2], [false; false; false; true; true; false])
  /\ clip (list Q) Numerics.polyval2d_const Numerics.std xfit yfit
       Examples.six_z (3 # 2) (1 # 2) [23 # 2]
       [false; false; false; true; true; false]
     = [false; false; false; false; true; true]
  /\ FitSpec.rounds_with (list Q) Numerics.polyfit2d_const
       Numerics.polyval2d_const Numerics.std xfit yfit Examples.six_z 0 0
       (3 # 2) (1 # 2) FitSpec.set_unchanged 3 None
       (ones_like Examples.six_z)
     = (Some [41 # 2], [false; false; false; false; false; true])
  /\ (coeff (fst run), mask (fst run))
     <> FitSpec.rounds_with (list Q) Numerics.polyfit2d_const
          Numerics.polyval2d_const Numerics.std xfit yfit Examples.six_z
          0 0 (3 # 2) (1 # 2) FitSpec.set_unchanged 3 None
          (ones_like Examples.six_z).
Proof.
  cbv zeta.
  split; [vm_compute; reflexivity|].
  split; [vm_compute; reflexivity|].
  split; [vm_compute; reflexivity|].
  vm_compute. discriminate.
Qed.

(** In that example [np.std] is exact: the variances 81, 225/4 and 9/4
    of the three rounds are squares. *)
Example std_exact_on_six :
  map (fun r => Qeq_bool (Numerics.std r * Numerics.std r)
                         (Numerics.variance r))
      [[-8 # 1; -8 # 1; -5 # 1; -4 # 1; 11 # 1; 14 # 1];
       [-15 # 2; 15 # 2]; [-3 # 2; 3 # 2]]%Q
  = [true; true; true].
Proof. vm_compute. reflexivity. Qed.

(** C3, amended: for at most [maxiter] rounds the loop fits over the
    accepted nodes, takes the residuals of all nodes and sigma over the
    accepted ones, accepts a node iff
    [-lower_clip*sigma < residual < upper_clip*sigma], and stops early
    exactly when the number of accepted nodes is unchanged (as it is
    whenever the accepted set is unchanged); otherwise the new mask is
    the working set of the next round. *)
Theorem C3_rounds_stop_on_unchanged_count
    (Coeff : Type)
    (polyfit2d : list Q -> list Q -> list Q -> Z -> Z -> Coeff)
    (polyval2d : list Q -> list Q -> Coeff -> list Q)
    (std : list Q -> Q)
    (xfit yfit zfit : list Q) (xorder yorder : Z)
    (upper_clip lower_clip : Q) (maxiter : nat) (mask0 : list bool) :
  let run :=
    run_from Coeff polyfit2d polyval2d std xfit yfit zfit xorder yorder
      upper_clip lower_clip maxiter mask0 in
  (coeff (fst run), mask (fst run))
    = FitSpec.rounds_with Coeff polyfit2d polyval2d std xfit yfit zfit
        xorder yorder upper_clip lower_clip FitSpec.count_unchanged
        maxiter None mask0
  /\ (List.length (_messages (fst run)) <= maxiter)%nat
  /\ (FitSpec.converged (_messages (fst run)) <-> snd run = true)
  /\ forall new old,
       FitSpec.set_unchanged new old = true ->
       FitSpec.count_unchanged new old = true.
Proof.
  cbv zeta. split; [|split; [|split]].
  - unfold run_from. rewrite loop_refines. reflexivity.
  - apply run_log_bound.
  - apply converged_iff_break.
  - intros new old H. unfold FitSpec.set_unchanged in H.
    destruct (list_eq_dec Bool.bool_dec new old) as [->|]; [|discriminate].
    unfold FitSpec.count_unchanged. apply Nat.eqb_refl.
Qed.




(** C9, as stated, fails.  The six nodes of C3 (intensities 0, 0, 3, 4,
    19, 22, degree (0,0), [upper_clip = 1.5], [lower_clip = 0.5],
    [maxiter = 3]): the fit converges, its loop is left through [break]
    in round 1, and it returns the surface 11.5 with the mask of the
    nodes 4 and 19.  One fit-and-clip round from that mask fits 11.5
    again but accepts the nodes 19 and 22: the pair returned is not a
    fixed point of the round, only the number of accepted nodes is. *)
Lemma C9_converged_pair_is_no_fixed_point :
  let r := Examples.fit_const Examples.six_shape Examples.six_x
             Examples.six_y Examples.six_z 0 0 3 (3 # 2) (1 # 2) in
  fst r = Done (repeat (23 # 2) 16,
                [false; false; false; true; true; false])
  /\ FitSpec.converged (snd r)
  /\ FitSpec.round (list Q) Numerics.polyfit2d_const
       Numerics.polyval2d_const Numerics.std
       (normalize Examples.six_x 2) (normalize Examples.six_y 8)
       Examples.six_z 0 0 (3 # 2) (1 # 2)
       [false; false; false; true; true; false]
     = ([23 # 2], [false; false; false; false; true; true]).
Proof.
  cbv zeta.
  split; [vm_compute; reflexivity|].
  split; vm_compute; reflexivity.
Qed.

(** C9, amended: when [fit_background] has converged (its loop was left
    through [break]), running its body again from the mask it returned,
    for any positive number of rounds, gives back the same surface and
    the same mask; and one fit-and-clip round from that mask fits the
    surface returned and accepts as many nodes as the mask holds, not
    necessarily the same ones. *)
Theorem C9_refit_from_converged_mask
    (Coeff : Type)
    (polyfit2d : list Q -> list Q -> list Q -> Z -> Z -> Coeff)
    (polyval2d : list Q -> list Q -> Coeff -> list Q)
    (std : list Q -> Q)
    (h w : Z) (xnodes ynodes : list Z) (znodes : list Q)
    (xorder yorder : Z) (maxiter maxiter' : nat)
    (upper_clip lower_clip : Q)
    (surface : list Q) (fitmask : list bool) (log : list message) :
  fit_background Coeff polyfit2d polyval2d std (h, w) xnodes ynodes znodes
    xorder yorder maxiter upper_clip lower_clip
  = (Done (surface, fitmask), log) ->
  FitSpec.converged log ->
  (0 < maxiter')%nat ->
  fst (FitSpec.refit Coeff polyfit2d polyval2d std fitmask (h, w)
         xnodes ynodes znodes xorder yorder maxiter' upper_clip lower_clip)
  = Done (surface, fitmask)
  /\ surface
     = surface_of Coeff polyval2d h w
         (fst (FitSpec.round Coeff polyfit2d polyval2d std
                 (normalize xnodes w) (normalize ynodes h) znodes xorder
                 yorder upper_clip lower_clip fitmask))
  /\ Py.count
       (snd (FitSpec.round Coeff polyfit2d polyval2d std
               (normalize xnodes w) (normalize ynodes h) znodes xorder
               yorder upper_clip lower_clip fitmask))
     = Py.count fitmask.
Proof.
  unfold fit_background, FitSpec.refit.
  intros H Hconv Hpos.
  inversion H as [[Hfin Hlog]]; clear H.
  rewrite <- Hlog in Hconv. apply converged_iff_break in Hconv.
  unfold run_from in *.
  destruct (fit_loop Coeff polyfit2d polyval2d std (normalize xnodes w)
              (normalize ynodes h) znodes xorder yorder upper_clip
              lower_clip maxiter 0
              {| coeff := None; mask := ones_like znodes; _messages := [] |})
    as [st b] eqn:E.
  cbn [fst snd] in *. subst b.
  unfold finish in Hfin.
  destruct (coeff st) as [c|] eqn:Hc; [|discriminate].
  inversion Hfin as [[Hs Hm]]; clear Hfin.
  destruct (rerun_after_break Coeff polyfit2d polyval2d std
              (normalize xnodes w) (normalize ynodes h) znodes xorder yorder
              upper_clip lower_clip maxiter 0%nat _ st maxiter' 0%nat None []
              E Hpos) as [log' Hre].
  rewrite Hre. cbn [fst]. unfold finish. cbn [coeff mask].
  split; [reflexivity|].
  rewrite round_is_fit_and_clip. cbn [fst snd].
  apply loop_break in E. destruct E as [Hfit [Hcount _]].
  rewrite Hc in Hfit. injection Hfit as ->.
  split; [reflexivity | exact Hcount].
Qed.

Lemma C9_refit_witness :
  fst (Examples.refit_const [false; false; false; true; true; false]
         (8, 2) Examples.six_x Examples.six_y Examples.six_z
         0 0 5 (3 # 2) (1 # 2))
  = Done (repeat (23 # 2) 16, [false; false; false; true; true; false])
  /\ repeat (23 # 2) 16
     = surface_of (list Q) Numerics.polyval2d_const 8 2
         (fst (FitSpec.round (list Q) Numerics.polyfit2d_const
                 Numerics.polyval2d_const Numerics.std
                 (normalize Examples.six_x 2) (normalize Examples.six_y 8)
                 Examples.six_z 0 0 (3 # 2) (1 # 2)
                 [false; false; false; true; true; false]))
  /\ Py.count
       (snd (FitSpec.round (list Q) Numerics.polyfit2d_const
               Numerics.polyval2d_const Numerics.std
               (normalize Examples.six_x 2) (normalize Examples.six_y 8)
               Examples.six_z 0 0 (3 # 2) (1 # 2)
               [false; false; false; true; true; false]))
     = Py.count [false; false; false; true; true; false].
Proof.
  refine (C9_refit_from_converged_mask (list Q) Numerics.polyfit2d_const
            Numerics.polyval2d_const Numerics.std 8 2
            Examples.six_x Examples.six_y Examples.six_z 0 0 3 5
            (3 # 2) (1 # 2) (repeat (23 # 2) 16)
            [false; false; false; true; true; false]
            (snd (Examples.fit_const Examples.six_shape Examples.six_x
                    Examples.six_y Examples.six_z 0 0 3 (3 # 2) (1 # 2)))
            _ _ _).
  - vm_compute. reflexivity.
  - vm_compute. reflexivity.
  - lia.
Defined.

End FitFacts.

(** * Termination of [correct_background] *)

Module Termination.

(** C1, amended: the clipping loop of [fit_background] runs at most
    [maxiter] rounds, and the extension of a column ends whenever the
    fitted cubic predicts a row at or above [h-1] at some index past the
    last node and a row at or below 0 at some negative index. *)
Theorem C1_rounds_bounded_and_walks_exit_when_cubic_leaves
    (Coeff : Type)
    (polyfit2d : list Q -> list Q -> list Q -> Z -> Z -> Coeff)
    (polyval2d : list Q -> list Q -> Coeff -> list Q)
    (std : list Q -> Q)
    (shape : Z * Z) (xnodes ynodes : list Z) (znodes : list Q)
    (xorder yorder : Z) (maxiter : nat) (upper_clip lower_clip : Q)
    (h : Z) (polyfit3 : list Z -> list Q) (inter_aper : list Z)
    (kup kdown : nat) :
  inter_aper <> [] ->
  (0 < kup)%nat -> (0 < kdown)%nat ->
  h - 1 <= Py.int (Py.polyval (polyfit3 inter_aper)
                     (inject_Z (Z.of_nat (List.length inter_aper) - 1
                                + Z.of_nat kup))) ->
  Py.int (Py.polyval (polyfit3 inter_aper) (inject_Z (0 - Z.of_nat kdown)))
    <= 0 ->
  (List.length
     (snd (Fit.fit_background Coeff polyfit2d polyval2d std shape xnodes
             ynodes znodes xorder yorder maxiter upper_clip lower_clip))
   <= maxiter)%nat
  /\ exists fuel rows,
       Sampler.extend_grid h polyfit3 fuel inter_aper = Done rows.
Proof.
  intros Hne Hup Hdown Hu Hd. split.
  - unfold Fit.fit_background.
    destruct shape as [h0 w0]. cbn [snd].
    apply FitFacts.run_log_bound.
  - exact (SamplerFacts.extend_grid_exits h polyfit3 inter_aper kup kdown
             Hne Hup Hdown Hu Hd).
Qed.

Lemma C1_rounds_bounded_witness :
  (List.length
     (snd (Examples.fit_const Examples.six_shape Examples.six_x
             Examples.six_y Examples.six_z 0 0 3 (3 # 2) (1 # 2)))
   <= 3)%nat
  /\ exists fuel rows,
       Sampler.extend_grid 350 (fun _ => Examples.cubic_dip) fuel
         Examples.rows_dip = Done rows.
Proof.
  refine (C1_rounds_bounded_and_walks_exit_when_cubic_leaves (list Q)
            Numerics.polyfit2d_const Numerics.polyval2d_const Numerics.std
            Examples.six_shape Examples.six_x Examples.six_y Examples.six_z
            0 0 3 (3 # 2) (1 # 2) 350 (fun _ => Examples.cubic_dip)
            Examples.rows_dip 7 1 _ _ _ _ _).
  - discriminate.
  - lia.
  - lia.
  - vm_compute. discriminate.
  - vm_compute. discriminate.
Defined.

End Termination.

(** * Properties of the body of [correct_background] *)

Module BodyFacts.

Import Body.

(** Runs the statements of the body on every path through it. *)
Ltac run_body :=
  unfold correct_background, correct_background_body, when, call, read,
    return_, raise, emit, ret, bind;
  repeat match goal with
         | |- context [match ?x with _ => _ end] =>
             lazymatch x with
             | context [match _ with _ => _ end] => fail
             | _ => destruct x eqn:?
             end
         | |- context [if ?x then _ else _] =>
             lazymatch x with
             | context [match _ with _ => _ end] => fail
             | context [if _ then _ else _] => fail
             | _ => destruct x eqn:?
             end
         end;
  cbn [fst snd option_map app] in *.

Section AnyNumbers.

Variable F : Type.
Variable zero : F.
Variable ltb : F -> F -> bool.
Variable minimum : F -> F -> F.
Variable log10 : F -> F.
Variable power10 : F -> F.
Variable fit_background : list F -> outcome (list F * list bool).
Variable interpolate_background : list F -> outcome (list F * list bool).

(** C10: whatever the arguments, no call of [correct_background] writes
    a region file: [return background_data] comes before the block that
    would. *)
Theorem C10_region_file_never_written
    (method scale : string) (display : bool)
    (fig_file reg_file : option string) (znodes : list F)
    (file : string) (lines : nat) :
  ~ In (WriteFile file lines)
       (snd (correct_background F zero ltb minimum log10 power10
               fit_background interpolate_background method scale display
               fig_file reg_file znodes)).
Proof.
  run_body; cbn; intuition discriminate.
Qed.

(** C5: with [method = 'spline'] and the linear scale, the call prints
    "Unknown method: spline", calls neither fitter, and then raises
    [UnboundLocalError] at the first use of [fitmask]; nothing is
    returned. *)
Theorem C5_unknown_method_raises
    (display : bool) (fig_file reg_file : option string) (znodes : list F) :
  correct_background F zero ltb minimum log10 power10 fit_background
    interpolate_background "spline" "linear" display fig_file reg_file
    znodes
  = (Raised (UnboundLocalError "fitmask"),
     [LogInfo "Found nodes for background fitting"]
       ++ (if display || (match fig_file with Some _ => true | None => false end)
           then [Plot "figure"] else [])
       ++ [Print "Unknown method: spline"]).
Proof.
  unfold correct_background, correct_background_body.
  destruct display, fig_file; reflexivity.
Qed.

(** On the logarithmic scale the same call raises at the first use of
    [background_data], provided some node is there to take the minimum
    of. *)
Lemma unknown_method_raises_on_log_scale
    (display : bool) (fig_file reg_file : option string) (znodes zs : list F) :
  log_scale F zero ltb minimum log10 znodes = Done zs ->
  fst (correct_background F zero ltb minimum log10 power10 fit_background
         interpolate_background "spline" "log" display fig_file reg_file
         znodes)
  = Raised (UnboundLocalError "background_data").
Proof.
  intros H. unfold correct_background, correct_background_body.
  cbn [String.eqb Ascii.eqb Bool.eqb andb]. unfold call, bind, emit.
  rewrite H. destruct display, fig_file; reflexivity.
Qed.

End AnyNumbers.

(** ** The logarithmic scale *)

Lemma select_map_In {A} (f : A -> bool) (l : list A) (v : A) :
  In v (Py.select l (map f l)) <-> In v l /\ f v = true.
Proof.
  induction l as [|u l IH]; cbn; [tauto|].
  destruct (f u) eqn:E; cbn; rewrite IH; split.
  - intros [-> | H]; [split; [left; reflexivity | exact E] | tauto].
  - tauto.
  - tauto.
  - intros [[-> | H] Hv]; [congruence | tauto].
Qed.

(** *** Order facts on floats *)

Ltac float_cases :=
  unfold Float.ltb, Float.zero in *;
  repeat match goal with
         | |- context [Rlt_dec ?a ?b] => destruct (Rlt_dec a b)
         | H : context [Rlt_dec ?a ?b] |- _ => destruct (Rlt_dec a b)
         end;
  try reflexivity; try discriminate; try lra.

Lemma ltb_Fin (x y : R) :
  Float.ltb (Float.Fin x) (Float.Fin y) = true <-> (x < y)%R.
Proof.
  unfold Float.ltb. destruct (Rlt_dec x y); split; intros H;
    try reflexivity; try assumption; try discriminate; contradiction.
Qed.

(** A positive float is a positive real or [inf]. *)
Lemma positive_is_no_nan (z : Float.float) :
  Float.ltb Float.zero z = true -> z <> Float.NaN /\ z <> Float.NInf.
Proof.
  destruct z; cbn; intros H; split; intros E; discriminate.
Qed.

Lemma minimum_choice (a b : Float.float) :
  Float.ltb Float.zero a = true -> Float.ltb Float.zero b = true ->
  (Float.minimum a b = a \/ Float.minimum a b = b)
  /\ Float.ltb a (Float.minimum a b) = false
  /\ Float.ltb b (Float.minimum a b) = false.
Proof.
  destruct a as [x| | |], b as [y| | |]; cbn; intros Ha Hb;
    try discriminate;
    repeat split; try (left; reflexivity); try (right; reflexivity);
    float_cases;
    try (left; reflexivity); try (right; reflexivity).
Qed.

(** [a <= b] and [b <= c] give [a <= c], away from [nan]. *)
Lemma not_ltb_trans (a b c : Float.float) :
  b <> Float.NaN ->
  Float.ltb b a = false -> Float.ltb c b = false -> Float.ltb c a = false.
Proof.
  destruct a as [x| | |], b as [y| | |], c as [z| | |]; cbn;
    intros Hb H1 H2; try reflexivity; try discriminate; try congruence;
    float_cases.
Qed.

Lemma fold_minimum_spec (ps : list Float.float) :
  forall p,
    Float.ltb Float.zero p = true ->
    Forall (fun q => Float.ltb Float.zero q = true) ps ->
    In (fold_left Float.minimum ps p) (p :: ps)
    /\ Float.ltb p (fold_left Float.minimum ps p) = false
    /\ Forall (fun q => Float.ltb q (fold_left Float.minimum ps p) = false)
         ps.
Proof.
  induction ps as [|u ps IH]; intros p Hp Hps; cbn [fold_left].
  - split; [left; reflexivity|]. split; [|constructor].
    destruct p; cbn in *; try discriminate; float_cases.
  - apply Forall_cons_iff in Hps. destruct Hps as [Hu Hps].
    destruct (minimum_choice p u Hp Hu) as [Hc [Hpm Hum]].
    assert (Hmpos : Float.ltb Float.zero (Float.minimum p u) = true).
    { destruct Hc as [-> | ->]; assumption. }
    destruct (IH (Float.minimum p u) Hmpos Hps) as [Hin [Hle Hall]].
    assert (Hnn : Float.minimum p u <> Float.NaN).
    { apply positive_is_no_nan. exact Hmpos. }
    split; [|split].
    + destruct Hin as [Hin | Hin]; [|right; right; exact Hin].
      rewrite <- Hin.
      destruct Hc as [-> | ->]; [left | right; left]; reflexivity.
    + apply (not_ltb_trans _ (Float.minimum p u) _ Hnn Hle Hpm).
    + constructor; [|exact Hall].
      apply (not_ltb_trans _ (Float.minimum p u) _ Hnn Hle Hum).
Qed.

(** [10**q] is [nan] for [nan] and a non-negative number otherwise. *)
Lemma power10_sign (q : Float.float) :
  match q with
  | Float.NaN => Float.power10 q = Float.NaN
  | _ => Float.nonneg (Float.power10 q)
  end.
Proof.
  destruct q as [r| | |]; cbn; try reflexivity; try exact I.
  unfold Rpower. left. apply exp_pos.
Qed.

Lemma select_none {A} (f : A -> bool) (l : list A) :
  (forall v, In v l -> f v = false) -> Py.select l (map f l) = [].
Proof.
  induction l as [|u l IH]; intros H; cbn; [reflexivity|].
  rewrite (H u (or_introl eq_refl)). apply IH.
  intros v Hv. apply H. right. exact Hv.
Qed.

(** *** Calls on the logarithmic scale *)

Section AnyFitter.

Variable fit_background :
  list Float.float -> outcome (list Float.float * list bool).
Variable interpolate_background :
  list Float.float -> outcome (list Float.float * list bool).

(** What the clamp does when it goes through. *)
Lemma log_scale_done znodes zs :
  FloatBody.log_scale znodes = Done zs ->
  exists m,
    In m znodes /\ Float.ltb Float.zero m = true
    /\ (forall z, In z znodes -> Float.ltb Float.zero z = true ->
                  Float.ltb z m = false)
    /\ zs = map Float.log10
              (map (fun z => if Float.ltb Float.zero z then z else m) znodes).
Proof.
  unfold FloatBody.log_scale, log_scale, clamp_nonpositive.
  destruct (Py.select znodes (map (fun z => Float.ltb Float.zero z) znodes))
    as [|p ps] eqn:E; [discriminate|].
  intros [= <-].
  assert (Hsel : forall v, In v (p :: ps) <->
                           In v znodes /\ Float.ltb Float.zero v = true).
  { intros v. rewrite <- E. apply select_map_In. }
  assert (Hp : Float.ltb Float.zero p = true).
  { apply (Hsel p). left. reflexivity. }
  assert (Hps : Forall (fun q => Float.ltb Float.zero q = true) ps).
  { apply Forall_forall. intros q Hq. apply (Hsel q). right. exact Hq. }
  destruct (fold_minimum_spec ps p Hp Hps) as [Hin [Hle Hall]].
  exists (fold_left Float.minimum ps p).
  apply Hsel in Hin. destruct Hin as [Hin Hpos].
  split; [exact Hin|]. split; [exact Hpos|]. split; [|reflexivity].
  intros z Hz Hzpos.
  assert (Hz' : In z (p :: ps)) by (apply Hsel; split; assumption).
  destruct Hz' as [<- | Hz']; [exact Hle|].
  rewrite Forall_forall in Hall. apply Hall. exact Hz'.
Qed.

(** A call on the logarithmic scale that returns handed the clamped
    logarithms to the fitter of its method and returns ten to the power
    of that fitter's surface. *)
Lemma log_call_returns
    (method : string) (display : bool)
    (fig_file reg_file : option string) (znodes : list Float.float)
    (v : option (list Float.float)) (tr : list effect) :
  FloatBody.correct_background fit_background interpolate_background
    method "log" display fig_file reg_file znodes = (Done v, tr) ->
  exists zs r,
    FloatBody.log_scale znodes = Done zs
    /\ (method = "poly"%string /\ fit_background zs = Done r
        \/ method = "interp"%string /\ interpolate_background zs = Done r)
    /\ v = Some (map Float.power10 (fst r)).
Proof.
  unfold FloatBody.correct_background, FloatBody.log_scale.
  run_body;
    try match goal with
        | E : String.eqb "log" "log" = false |- _ =>
            vm_compute in E; discriminate E
        end;
    cbn; intros H; try discriminate H;
    injection H as <- <-; try congruence.
  all: repeat match goal with
              | E : String.eqb _ _ = true |- _ => apply String.eqb_eq in E
              | E : Some _ = Some _ |- _ => injection E as E
              end.
  all: subst.
  all: eexists _, _.
  all: split; [reflexivity|].
  all: split; [first [left; split; [reflexivity | eassumption]
                     | right; split; [reflexivity | eassumption]]|].
  all: reflexivity.
Qed.

End AnyFitter.

(** C7, as stated, fails in two ways.
    - With [method='interp'] the surface returned holds [nan].  On a frame
      of 4 rows and 2 columns with nodes of intensity 1 at the four
      pixels of rows 1 and 2, [griddata] gives [nan] in rows 0 and 3,
      ten to the power of [nan] is [nan], and the surface returned is
      not non-negative at every pixel.
    - When no sampled intensity is positive there is no least positive
      intensity to put in: [znodes[pmask].min()] raises and nothing is
      replaced or returned. *)
Lemma C7_surface_holds_nan_and_clamp_raises :
  (exists s tr,
      FloatBody.correct_background Examples.griddata_rows_1_2
        Examples.griddata_rows_1_2 "interp" "log" true None None
        [Float.Fin 1; Float.Fin 1; Float.Fin 1; Float.Fin 1]
      = (Done (Some [Float.NaN; Float.NaN; s; s; s; s;
                     Float.NaN; Float.NaN]), tr)
      /\ ~ Forall Float.nonneg
             [Float.NaN; Float.NaN; s; s; s; s; Float.NaN; Float.NaN])
  /\ FloatBody.correct_background Examples.griddata_rows_1_2
       Examples.griddata_rows_1_2 "poly" "log" true None None
       [Float.Fin 0; Float.Fin (-1)]
     = (Raised (ValueError "zero-size array to reduction operation minimum"),
        [LogInfo "Found nodes for background fitting"]).
Proof.
  split.
  - eexists _, _. split.
    + unfold FloatBody.correct_background, correct_background,
        correct_background_body, log_scale, clamp_nonpositive,
        when, call, read, return_, raise, emit, ret, bind.
      cbn. float_cases.
    + intros H. apply Forall_inv in H. exact H.
  - unfold FloatBody.correct_background, correct_background,
      correct_background_body, log_scale, clamp_nonpositive,
      when, call, read, return_, raise, emit, ret, bind.
    cbn. float_cases.
Qed.

(** C7, amended: on the logarithmic scale, a call whose sampled
    intensities hold no positive one raises at the clamp.  A call that
    returns had a least positive intensity [m]; every intensity that is
    not positive was replaced by [m] before [log10] was taken, the fitter
    of the method was given these logarithms, and the surface returned
    is ten to the power of the fitter's surface, pixel by pixel:
    non-negative wherever the fitter's surface is a number, and [nan]
    wherever it is [nan]. *)
Theorem C7_log_scale_clamps_and_surface_nonnegative
    (fit_background interpolate_background :
       list Float.float -> outcome (list Float.float * list bool))
    (method : string) (display : bool)
    (fig_file reg_file : option string) (znodes : list Float.float) :
  ((forall z, In z znodes -> Float.ltb Float.zero z = false) ->
   FloatBody.correct_background fit_background interpolate_background
     method "log" display fig_file reg_file znodes
   = (Raised (ValueError "zero-size array to reduction operation minimum"),
      [LogInfo "Found nodes for background fitting"]))
  /\ forall v tr,
       FloatBody.correct_background fit_background interpolate_background
         method "log" display fig_file reg_file znodes = (Done v, tr) ->
       exists m r,
         In m znodes /\ Float.ltb Float.zero m = true
         /\ (forall z, In z znodes -> Float.ltb Float.zero z = true ->
                       Float.ltb z m = false)
         /\ (let logs :=
               map Float.log10
                 (map (fun z => if Float.ltb Float.zero z then z else m)
                    znodes) in
             method = "poly"%string /\ fit_background logs = Done r
             \/ method = "interp"%string
                /\ interpolate_background logs = Done r)
         /\ v = Some (map Float.power10 (fst r))
         /\ Forall (fun q => match q with
                             | Float.NaN => Float.power10 q = Float.NaN
                             | _ => Float.nonneg (Float.power10 q)
                             end) (fst r).
Proof.
  split.
  - intros Hnone.
    unfold FloatBody.correct_background, correct_background,
      correct_background_body, log_scale, clamp_nonpositive.
    rewrite (select_none (fun z => Float.ltb Float.zero z) znodes Hnone).
    reflexivity.
  - intros v tr H.
    destruct (log_call_returns fit_background interpolate_background method
                display fig_file reg_file znodes v tr H)
      as [zs [r [Hlog [Hfit Hv]]]].
    destruct (log_scale_done znodes zs Hlog) as [m [Hin [Hpos [Hmin Hzs]]]].
    exists m, r. subst zs.
    split; [exact Hin|]. split; [exact Hpos|]. split; [exact Hmin|].
    split; [exact Hfit|]. split; [exact Hv|].
    apply Forall_forall. intros q _. apply power10_sign.
Qed.

(** A call that returns: intensities -1, 2, 0 and 3 on a frame of 4 rows
    and 2 columns; the least positive one is 2. *)
Lemma C7_log_scale_witness :
  exists m r,
    In m [Float.Fin (-1); Float.Fin 2; Float.Fin 0; Float.Fin 3]
    /\ Float.ltb Float.zero m = true
    /\ (forall z,
          In z [Float.Fin (-1); Float.Fin 2; Float.Fin 0; Float.Fin 3] ->
          Float.ltb Float.zero z = true -> Float.ltb z m = false)
    /\ (let logs :=
          map Float.log10
            (map (fun z => if Float.ltb Float.zero z then z else m)
               [Float.Fin (-1); Float.Fin 2; Float.Fin 0; Float.Fin 3]) in
        ("interp" = "poly")%string
        /\ Examples.griddata_rows_1_2 logs = Done r
        \/ ("interp" = "interp")%string
           /\ Examples.griddata_rows_1_2 logs = Done r)
    /\ Some [Float.NaN; Float.NaN;
             Float.Fin (Rpower 10 (ln 2 / ln 10));
             Float.Fin (Rpower 10 (ln 2 / ln 10));
             Float.Fin (Rpower 10 (ln 2 / ln 10));
             Float.Fin (Rpower 10 (ln 3 / ln 10));
             Float.NaN; Float.NaN]
       = Some (map Float.power10 (fst r))
    /\ Forall (fun q => match q with
                        | Float.NaN => Float.power10 q = Float.NaN
                        | _ => Float.nonneg (Float.power10 q)
                        end) (fst r).
Proof.
  refine (proj2 (C7_log_scale_clamps_and_surface_nonnegative
                   Examples.griddata_rows_1_2 Examples.griddata_rows_1_2
                   "interp" true None None
                   [Float.Fin (-1); Float.Fin 2; Float.Fin 0; Float.Fin 3])
            _ [LogInfo "Found nodes for background fitting"; Plot "figure";
               LogInfo "Background Nodes:"; Plot "surface and residuals";
               Plot "nodes and background"; Show; CloseFig] _).
  unfold FloatBody.correct_background, correct_background,
    correct_background_body, log_scale, clamp_nonpositive,
    when, call, read, return_, raise, emit, ret, bind.
  repeat first [progress cbn | progress float_cases].
Defined.

(** Two runs on the linear scale, with a fitter that hands the node
    intensities back: with a figure the call returns and leaves the
    region file alone; without one, [plt.close(fig)] finds [fig]
    unbound. *)
Example region_file_left_alone :
  FloatBody.correct_background
    (fun zs => Done (zs, map (fun _ => true) zs))
    (fun zs => Done (zs, map (fun _ => true) zs))
    "poly" "linear" true None (Some "nodes.reg"%string) [Float.Fin 1]
  = (Done (Some [Float.Fin 1]),
     [LogInfo "Found nodes for background fitting"; Plot "figure";
      LogInfo "Background Nodes:"; Plot "surface and residuals";
      Plot "nodes and background"; Show; CloseFig]).
Proof. reflexivity. Qed.

Example no_figure_no_return :
  FloatBody.correct_background
    (fun zs => Done (zs, map (fun _ => true) zs))
    (fun zs => Done (zs, map (fun _ => true) zs))
    "poly" "linear" false None (Some "nodes.reg"%string) [Float.Fin 1]
  = (Raised (UnboundLocalError "fig"),
     [LogInfo "Found nodes for background fitting";
      LogInfo "Background Nodes:"; Show]).
Proof. reflexivity. Qed.

End BodyFacts.

(** * Properties of the background matching of [reduce_doublefiber] *)

Module MatchingFacts.

Import Body Matching.

Local Open Scope string_scope.

Section Frame.

Variable find_best_background : Z -> string -> option BackgroundLight.
Variable select_background_from_database :
  Z -> string -> option BackgroundLight.
Variable find_brightness_scale : Z -> BackgroundLight -> Q.

Let round :=
  fiber_round find_best_background select_background_from_database
    find_brightness_scale.
Let loop :=
  fiber_loop find_best_background select_background_from_database
    find_brightness_scale.

(** A round either goes on to the next fiber without touching what was
    printed before, or reports the missing background and raises. *)
Lemma round_next_or_raise fo st tr :
  (exists st' tr', round fo st tr = (Next st', tr'))
  \/ (exists tr', round fo st tr = (Raise no_data, tr') /\ In not_found tr').
Proof.
  destruct fo as [ifiber objname].
  unfold round, fiber_round, select_for, bind, emit, ret, read, raise.
  destruct (find_best_background ifiber objname) as [b|]; cbn.
  - left. eexists _, _. reflexivity.
  - destruct (select_background_from_database ifiber objname) as [b|]; cbn.
    + left. eexists _, _. reflexivity.
    + right. eexists. split; [reflexivity|].
      apply in_or_app. right. left. reflexivity.
Qed.

(** A round for a fiber without any background raises. *)
Lemma round_raises ifiber objname st tr :
  find_best_background ifiber objname = None ->
  select_background_from_database ifiber objname = None ->
  exists tr',
    round (ifiber, objname) st tr = (Raise no_data, tr') /\ In not_found tr'.
Proof.
  intros H1 H2.
  unfold round, fiber_round, select_for, bind, emit, ret, read, raise.
  rewrite H1, H2. cbn.
  eexists. split; [reflexivity|].
  apply in_or_app. right. left. reflexivity.
Qed.

Lemma loop_raises fiberobj_lst ifiber objname :
  In (ifiber, objname) fiberobj_lst ->
  find_best_background ifiber objname = None ->
  select_background_from_database ifiber objname = None ->
  forall st tr,
    exists tr',
      loop fiberobj_lst st tr = (Raise no_data, tr') /\ In not_found tr'.
Proof.
  intros Hin H1 H2.
  induction fiberobj_lst as [|fo rest IH]; [contradiction|].
  intros st tr. cbn [loop fiber_loop]. unfold bind. fold round.
  destruct Hin as [-> | Hin].
  - destruct (round_raises ifiber objname st tr H1 H2) as [tr' [E Hp]].
    rewrite E. eauto.
  - destruct (round_next_or_raise fo st tr) as [[st' [tr' E]] | [tr' [E Hp]]];
      rewrite E; [|eauto].
    apply IH. exact Hin.
Qed.

End Frame.

(** C6: when neither the candidates of the session nor the archive hold a
    background for one of the fibers of a frame, the background step of
    that frame prints the error and raises; no subtracted frame comes
    out of it. *)
Theorem C6_missing_background_raises
    (find_best_background : Z -> string -> option BackgroundLight)
    (select_background_from_database : Z -> string -> option BackgroundLight)
    (find_brightness_scale : Z -> BackgroundLight -> Q)
    (frame : list Q) (fiberobj_lst : list (Z * string))
    (ifiber : Z) (objname : string) :
  In (ifiber, objname) fiberobj_lst ->
  find_best_background ifiber objname = None ->
  select_background_from_database ifiber objname = None ->
  exists tr,
    subtract_background find_best_background
      select_background_from_database find_brightness_scale frame
      fiberobj_lst []
    = (Raise no_data, tr)
    /\ In not_found tr.
Proof.
  intros Hin H1 H2.
  unfold subtract_background, bind.
  destruct (loop_raises find_best_background
              select_background_from_database find_brightness_scale
              fiberobj_lst ifiber objname Hin H1 H2
              {| background := map (fun _ => 0%Q) frame; scale := None;
                 fiber_sel_bkg_lst := []; fiber_scale_lst := [] |} [])
    as [tr [E Hp]].
  rewrite E. exists tr. split; [reflexivity | exact Hp].
Qed.

Lemma C6_missing_background_witness :
  exists tr,
    subtract_background (fun _ _ => None) (fun _ _ => None) (fun _ _ => 1%Q)
      [1%Q; 2 # 1] [(0, "HD 1"); (1, "comb")] []
    = (Raise no_data, tr)
    /\ In not_found tr.
Proof.
  apply (C6_missing_background_raises (fun _ _ => None) (fun _ _ => None)
           (fun _ _ => 1%Q) [1%Q; 2 # 1] [(0, "HD 1"); (1, "comb")]
           0 "HD 1").
  - simpl. auto.
  - reflexivity.
  - reflexivity.
Defined.

End MatchingFacts.

(** * More on the node sampler *)

Module ScanFacts.

Import Scan.

(** ** The columns that are scanned *)

Lemma cdiv_bounds a b :
  0 < b -> (cdiv a b - 1) * b < a <= cdiv a b * b.
Proof.
  intros Hb. unfold cdiv.
  pose proof (Z.div_mod (- a) b ltac:(lia)) as Hd.
  pose proof (Z.mod_pos_bound (- a) b Hb) as Hm.
  nia.
Qed.

Lemma diff_steps s e n :
  forall start,
    Py.diff (map (fun k => Z.of_nat k * s) (seq start (S n)) ++ [e])
    = repeat s n ++ [e - Z.of_nat (start + n) * s].
Proof.
  induction n as [|n IH]; intros start.
  - cbn. do 2 f_equal. lia.
  - specialize (IH (S start)).
    change (seq (S start) (S n)) with (S start :: seq (S (S start)) n) in IH.
    change (seq start (S (S n)))
      with (start :: S start :: seq (S (S start)) n).
    cbn [map app] in IH |- *. cbn [Py.diff repeat app].
    f_equal; [lia|].
    etransitivity; [exact IH|].
    do 3 f_equal. lia.
Qed.

Lemma x_lst_shape w scan_step :
  1 <= scan_step -> 2 <= w ->
  exists n,
    x_lst w scan_step
    = Some (map (fun k => Z.of_nat k * scan_step) (seq 0 (S n)) ++ [w - 1])
    /\ Z.of_nat n * scan_step < w - 1 <= (Z.of_nat n + 1) * scan_step.
Proof.
  intros Hs Hw.
  pose proof (cdiv_bounds (w - 1) scan_step ltac:(lia)) as Hc.
  assert (Hpos : 1 <= cdiv (w - 1) scan_step) by nia.
  exists (Z.to_nat (cdiv (w - 1) scan_step - 1)).
  replace (S (Z.to_nat (cdiv (w - 1) scan_step - 1)))
    with (Z.to_nat (cdiv (w - 1) scan_step)) by lia.
  split; [|rewrite Z2Nat.id by lia; lia].
  unfold x_lst, arange.
  replace (scan_step =? 0) with false by (symmetry; apply Z.eqb_neq; lia).
  replace (Z.to_nat (cdiv (w - 1) scan_step))
    with (S (Z.to_nat (cdiv (w - 1) scan_step - 1))) by lia.
  rewrite seq_S, map_app. cbn [map].
  rewrite PyFacts.last_opt_app.
  replace (_ =? w - 1) with false; [reflexivity|].
  symmetry. apply Z.eqb_neq. cbn [Nat.add]. rewrite Z2Nat.id by lia. lia.
Qed.

(** X1: with a positive stride, the scan list exists exactly for frames
    at least two columns wide; it then starts at column 0, ends at the
    last column [w-1], and steps forward by at most [scan_step]. *)
Theorem scan_columns_cover_the_frame w scan_step :
  1 <= scan_step ->
  (w <= 1 -> x_lst w scan_step = None)
  /\ (2 <= w ->
      exists l,
        x_lst w scan_step = Some l
        /\ hd_error l = Some 0
        /\ Py.last_opt l = Some (w - 1)
        /\ Forall (fun d => 0 < d <= scan_step) (Py.diff l)).
Proof.
  intros Hs. split.
  - intros Hw. unfold x_lst, arange.
    replace (scan_step =? 0) with false by (symmetry; apply Z.eqb_neq; lia).
    pose proof (cdiv_bounds (w - 1) scan_step ltac:(lia)) as Hc.
    replace (Z.to_nat (cdiv (w - 1) scan_step)) with 0%nat by nia.
    reflexivity.
  - intros Hw.
    destruct (x_lst_shape w scan_step Hs Hw) as [n [E Hn]].
    eexists. split; [exact E|]. split; [reflexivity|].
    split; [apply PyFacts.last_opt_app|].
    rewrite diff_steps. apply Forall_app. split.
    + apply Forall_forall. intros d Hd. apply repeat_spec in Hd. lia.
    + constructor; [|constructor]. cbn [Nat.add]. lia.
Qed.

Lemma scan_columns_witness :
  exists l,
    x_lst 5 2 = Some l
    /\ hd_error l = Some 0
    /\ Py.last_opt l = Some (5 - 1)
    /\ Forall (fun d => 0 < d <= 2) (Py.diff l).
Proof.
  apply (proj2 (scan_columns_cover_the_frame 5 2 ltac:(lia))). lia.
Defined.

(** ** Bad pixels *)

Lemma int16_id v : -32768 <= v < 32768 -> int16 v = v.
Proof.
  intros Hv. unfold int16. rewrite Z.mod_small by lia. lia.
Qed.

Lemma positive_has_a_bit z : 0 < z -> exists i, 0 <= i /\ Z.testbit z i = true.
Proof.
  intros Hz. exists (Z.log2 z). split; [apply Z.log2_nonneg|].
  apply Z.bit_log2. exact Hz.
Qed.

(** X2: for a non-negative [block_mask] and a 16-bit mask value, a pixel
    is treated as bad exactly when its mask value has a bit in common
    with [block_mask]. *)
Theorem bad_pixel_iff_common_bit block_mask v :
  0 <= block_mask ->
  -32768 <= v < 32768 ->
  data_mask block_mask v = true
  <-> exists i, 0 <= i /\ Z.testbit v i = true
                /\ Z.testbit block_mask i = true.
Proof.
  intros Hb Hv. unfold data_mask. rewrite (int16_id v Hv).
  rewrite Z.ltb_lt. split.
  - intros Hpos. destruct (positive_has_a_bit _ Hpos) as [i [Hi Ht]].
    rewrite Z.land_spec in Ht. apply andb_true_iff in Ht.
    exists i. tauto.
  - intros [i [Hi [H1 H2]]].
    assert (Hnn : 0 <= Z.land v block_mask).
    { apply Z.land_nonneg. right. exact Hb. }
    assert (Hne : Z.land v block_mask <> 0).
    { intros H0.
      assert (Ht : Z.testbit (Z.land v block_mask) i = true).
      { rewrite Z.land_spec, H1, H2. reflexivity. }
      rewrite H0, Z.bits_0 in Ht. discriminate. }
    lia.
Qed.

Lemma bad_pixel_witness :
  data_mask 4 6 = true
  <-> exists i, 0 <= i /\ Z.testbit 6 i = true /\ Z.testbit 4 i = true.
Proof.
  apply (bad_pixel_iff_common_bit 4 6); lia.
Defined.

(** ** The range of aperture numbers *)

Lemma fold_min_le l :
  forall v, fold_left Z.min l v <= v
            /\ forall u, In u l -> fold_left Z.min l v <= u.
Proof.
  induction l as [|a l IH]; intros v; cbn; [split; [lia | tauto]|].
  destruct (IH (Z.min v a)) as [H1 H2]. split; [lia|].
  intros u [<- | Hu]; [lia | apply H2; exact Hu].
Qed.

Lemma fold_max_ge l :
  forall v, v <= fold_left Z.max l v
            /\ forall u, In u l -> u <= fold_left Z.max l v.
Proof.
  induction l as [|a l IH]; intros v; cbn; [split; [lia | tauto]|].
  destruct (IH (Z.max v a)) as [H1 H2]. split; [lia|].
  intros u [<- | Hu]; [lia | apply H2; exact Hu].
Qed.

Lemma py_min_le l m u : py_min l = Some m -> In u l -> m <= u.
Proof.
  destruct l as [|v l]; [discriminate|]. cbn. intros [= <-].
  destruct (fold_min_le l v) as [H1 H2].
  intros [<- | Hu]; [exact H1 | apply H2; exact Hu].
Qed.

Lemma py_max_ge l m u : py_max l = Some m -> In u l -> u <= m.
Proof.
  destruct l as [|v l]; [discriminate|]. cbn. intros [= <-].
  destruct (fold_max_ge l v) as [H1 H2].
  intros [<- | Hu]; [exact H1 | apply H2; exact Hu].
Qed.

Lemma each_In {A B} (f : A -> option B) l bs a :
  each f l = Some bs -> In a l -> exists b, f a = Some b /\ In b bs.
Proof.
  revert bs. induction l as [|a' l IH]; intros bs; cbn; [tauto|].
  destruct (f a') as [b'|] eqn:E; [|discriminate].
  destruct (each f l) as [bs'|]; [|discriminate].
  intros [= <-] [-> | Ha].
  - exists b'. split; [exact E | left; reflexivity].
  - destruct (IH bs' eq_refl Ha) as [b [Hb Hin]].
    exists b. split; [exact Hb | right; exact Hin].
Qed.

Lemma each_none {A B} (f : A -> option B) l :
  each f l = None <-> exists a, In a l /\ f a = None.
Proof.
  induction l as [|a l IH]; cbn.
  - split; [discriminate | intros [a [[] _]]].
  - destruct (f a) as [b|] eqn:E.
    + destruct (each f l) as [bs|].
      * split; [discriminate|].
        intros [a' [[<- | Ha] Hn]]; [congruence|].
        assert (Hc : Some bs = None) by (apply IH; eauto).
        discriminate.
      * split; [|reflexivity]. intros _.
        destruct (proj1 IH eq_refl) as [a' [Ha Hn]]. eauto.
    + split; [|destruct (each f l); reflexivity].
      intros _. exists a. split; [left; reflexivity | exact E].
Qed.

(** X3: the aperture range is undefined (the code raises) exactly when
    there is no channel or some channel has no aperture; otherwise every
    aperture number of every channel lies between [min_aper] and
    [max_aper], so the scan visits it. *)
Theorem aperture_range_covers_every_channel (sets : list Sampler.ApertureSet) :
  (min_aper sets = None <-> sets = [] \/ In [] sets)
  /\ (max_aper sets = None <-> sets = [] \/ In [] sets)
  /\ forall lo hi s k f,
       min_aper sets = Some lo -> max_aper sets = Some hi ->
       In s sets -> In (k, f) s -> lo <= k <= hi.
Proof.
  assert (Hnone : forall (g : list Z -> option Z),
             (forall l, g l = None <-> l = []) ->
             match each (fun s : Sampler.ApertureSet => g (map fst s)) sets with
             | Some ms => g ms
             | None => None
             end = None <-> sets = [] \/ In [] sets).
  { intros g Hg.
    destruct (each (fun s : Sampler.ApertureSet => g (map fst s)) sets)
      as [ms|] eqn:E.
    - rewrite Hg. split.
      + intros ->. left. destruct sets as [|s sets']; [reflexivity|].
        cbn in E. destruct (g (map fst s)); [|discriminate].
        destruct (each _ sets'); discriminate.
      + intros [-> | Hin].
        * cbn in E. congruence.
        * destruct (each_In _ _ _ _ E Hin) as [b [Hb _]].
          cbn in Hb. pose proof (proj2 (Hg []) eq_refl). congruence.
    - split; [|reflexivity]. intros _. right.
      apply each_none in E. destruct E as [s [Hs Hn]].
      apply Hg in Hn. destruct s; [exact Hs | discriminate]. }
  split; [|split].
  - apply Hnone. intros l. destruct l; cbn; split; congruence.
  - apply Hnone. intros l. destruct l; cbn; split; congruence.
  - intros lo hi s k f Hlo Hhi Hs Hk.
    unfold min_aper in Hlo. unfold max_aper in Hhi.
    destruct (each (fun s => py_min (map fst s)) sets) as [mins|] eqn:Emin;
      [|discriminate].
    destruct (each (fun s => py_max (map fst s)) sets) as [maxs|] eqn:Emax;
      [|discriminate].
    destruct (each_In _ _ _ _ Emin Hs) as [m [Hm Hmin]].
    destruct (each_In _ _ _ _ Emax Hs) as [M [HM Hmax]].
    assert (Hkin : In k (map fst s)).
    { change k with (fst (k, f)). apply in_map. exact Hk. }
    pose proof (py_min_le _ _ _ Hm Hkin).
    pose proof (py_max_ge _ _ _ HM Hkin).
    pose proof (py_min_le _ _ _ Hlo Hmin).
    pose proof (py_max_ge _ _ _ Hhi Hmax).
    lia.
Qed.

Lemma aperture_range_witness : 0 <= 1 <= 1.
Proof.
  apply (proj2 (proj2 (aperture_range_covers_every_channel
                         [Examples.fiber_A; Examples.fiber_B]))
           0 1 Examples.fiber_B 1 (fun _ => 40 # 1)).
  - reflexivity.
  - reflexivity.
  - simpl. tauto.
  - simpl. tauto.
Defined.

(** ** What the filters keep *)

Lemma select_In {A} (a : list A) (m : list bool) (v : A) :
  In v (Py.select a m) -> In v a.
Proof.
  revert m. induction a as [|u a IH]; intros m; cbn; [tauto|].
  destruct m as [|b m]; cbn; [tauto|].
  destruct b; cbn; [intros [-> | H]; [left; reflexivity | right; eauto]|].
  intros H. right. eauto.
Qed.

Lemma in_frame_In h ia y :
  In y (Sampler.in_frame h ia) <-> In y ia /\ 0 < y < h - 1.
Proof.
  unfold Sampler.in_frame. rewrite BodyFacts.select_map_In.
  rewrite andb_true_iff, !Z.ltb_lt. tauto.
Qed.

Lemma column_nodes_In xsection x dm rows x' y z :
  In (x', y, z) (Sampler.column_nodes xsection x dm rows)
  <-> In y rows /\ x' = x /\ nth (Z.to_nat y) dm false = false
      /\ z = nth (Z.to_nat y) xsection 0%Q.
Proof.
  unfold Sampler.column_nodes. rewrite in_flat_map. split.
  - intros [r [Hr Hin]].
    destruct (nth (Z.to_nat r) dm false) eqn:E; [destruct Hin|].
    destruct Hin as [Heq | []]. inversion Heq; subst. tauto.
  - intros [Hy [-> [Hm ->]]]. exists y. split; [exact Hy|].
    rewrite Hm. left. reflexivity.
Qed.

Lemma column_nodes_inside
    h meddata mask block_mask scan_step extend polyfit3 sets
    fuel lo hi x nodes x' y z :
  column h meddata mask block_mask scan_step extend polyfit3 sets
    fuel lo hi x = Done nodes ->
  In (x', y, z) nodes ->
  x' = x /\ 0 < y < h - 1
  /\ nth (Z.to_nat y) (map (data_mask block_mask) (mask x)) false = false
  /\ z = nth (Z.to_nat y) (meddata x) 0%Q.
Proof.
  unfold column. intros H Hin.
  destruct (Sampler.column_rows h polyfit3 fuel extend _) as [rows| |] eqn:E;
    try discriminate.
  inversion H; subst; clear H.
  apply column_nodes_In in Hin. destruct Hin as [Hy [Hx [Hm Hz]]].
  split; [exact Hx|]. split; [|split; assumption].
  unfold Sampler.column_rows in E.
  destruct (if extend then _ else _) as [ia| |]; try discriminate.
  inversion E; subst; clear E.
  unfold Sampler.remove_backward in Hy. apply select_In in Hy.
  apply in_frame_In in Hy. tauto.
Qed.

(** X4: every node sampled over the scanned columns lies in one of those
    columns, strictly between the first and the last row of the frame,
    on a pixel that is not marked bad, and carries the median-filtered
    intensity of that pixel. *)
Theorem nodes_inside_frame_on_good_pixels
    h meddata mask block_mask scan_step extend polyfit3 sets
    fuel lo hi xs nodes x y z :
  columns h meddata mask block_mask scan_step extend polyfit3 sets
    fuel lo hi xs = Done nodes ->
  In (x, y, z) nodes ->
  In x xs /\ 0 < y < h - 1
  /\ nth (Z.to_nat y) (map (data_mask block_mask) (mask x)) false = false
  /\ z = nth (Z.to_nat y) (meddata x) 0%Q.
Proof.
  revert nodes. induction xs as [|x0 xs IH]; intros nodes; cbn [columns].
  - intros [= <-] [].
  - destruct (column h meddata mask block_mask scan_step extend polyfit3
                sets fuel lo hi x0) as [here| |] eqn:E; try discriminate.
    destruct (columns h meddata mask block_mask scan_step extend polyfit3
                sets fuel lo hi xs) as [rest| |]; try discriminate.
    intros [= <-] Hin. apply in_app_or in Hin. destruct Hin as [Hin | Hin].
    + destruct (column_nodes_inside _ _ _ _ _ _ _ _ _ _ _ _ _ _ _ _ E Hin)
        as [-> H].
      split; [left; reflexivity | exact H].
    + destruct (IH rest eq_refl Hin) as [Hx H].
      split; [right; exact Hx | exact H].
Qed.

Lemma nodes_inside_frame_witness :
  In 0 [0] /\ 0 < 266 < 350 - 1
  /\ nth (Z.to_nat 266) (map (data_mask 4) (repeat 0 350)) false = false
  /\ 1%Q = nth (Z.to_nat 266) Examples.column_dip 0%Q.
Proof.
  apply (nodes_inside_frame_on_good_pixels 350
           (fun _ => Examples.column_dip) (fun _ => repeat 0 350) 4 50 true
           (fun _ => Examples.cubic_dip) [Examples.fiber_dip] 7 0 4 [0]
           [(0, 10, 0%Q); (0, 147, 0%Q); (0, 230, 0%Q); (0, 271, 0%Q);
            (0, 282, 1%Q); (0, 266, 1%Q); (0, 307, 1%Q)]).
  - vm_compute. reflexivity.
  - simpl. tauto.
Defined.

(** ** When the backward-point filter does give increasing rows *)

Lemma remove_backward_after p ia :
  StronglySorted Z.le (p :: ia) ->
  let out := Py.select ia (map (fun d => 0 <? d) (Py.diff (p :: ia))) in
  Forall (fun y => p < y) out
  /\ StronglySorted Z.lt out
  /\ forall y, In y ia -> p < y -> In y out.
Proof.
  revert p. induction ia as [|v ia IH]; intros p Hs; cbn zeta.
  - cbn. split; [constructor|]. split; [constructor | tauto].
  - assert (Hpv : p <= v).
    { apply StronglySorted_inv in Hs. destruct Hs as [_ Hall].
      apply Forall_inv in Hall. exact Hall. }
    assert (Hs' : StronglySorted Z.le (v :: ia)).
    { apply StronglySorted_inv in Hs. tauto. }
    destruct (IH v Hs') as [Hgt [Hsorted Hkeep]].
    change (Py.diff (p :: v :: ia)) with ((v - p) :: Py.diff (v :: ia)).
    cbn [map Py.select].
    destruct (0 <? v - p) eqn:E.
    + apply Z.ltb_lt in E. split; [|split].
      * constructor; [lia|].
        eapply Forall_impl; [|exact Hgt]. cbn. intros; lia.
      * constructor; [exact Hsorted | exact Hgt].
      * intros y [<- | Hy] Hpy; [left; reflexivity|].
        assert (Hvy : v <= y).
        { apply StronglySorted_inv in Hs'. destruct Hs' as [_ Hall].
          rewrite Forall_forall in Hall. apply Hall. exact Hy. }
        destruct (Z.eq_dec v y) as [<- | Hne]; [left; reflexivity|].
        right. apply Hkeep; [exact Hy | lia].
    + apply Z.ltb_ge in E. assert (v = p) by lia. subst v.
      split; [exact Hgt|]. split; [exact Hsorted|].
      intros y [<- | Hy] Hpy; [lia|]. apply Hkeep; assumption.
Qed.

(** X5: on rows that never step back (each row at least its
    predecessor), the backward-point filter returns strictly increasing
    rows and loses no positive row value: it only drops repetitions and
    rows that are not positive. *)
Theorem remove_backward_sorts_weakly_increasing_rows ia :
  StronglySorted Z.le ia ->
  Forall (fun y => 0 <= y) ia ->
  StronglySorted Z.lt (Sampler.remove_backward ia)
  /\ forall y, In y ia -> 0 < y -> In y (Sampler.remove_backward ia).
Proof.
  intros Hs Hnn.
  assert (H0 : StronglySorted Z.le (0 :: ia)) by (constructor; assumption).
  destruct (remove_backward_after 0 ia H0) as [_ [H1 H2]].
  split; [exact H1 | exact H2].
Qed.

Lemma remove_backward_sorts_witness :
  StronglySorted Z.lt (Sampler.remove_backward [0; 3; 3; 7; 7; 7; 9])
  /\ forall y, In y [0; 3; 3; 7; 7; 7; 9] -> 0 < y ->
               In y (Sampler.remove_backward [0; 3; 3; 7; 7; 7; 9]).
Proof.
  apply remove_backward_sorts_weakly_increasing_rows.
  - repeat (constructor; [|repeat (constructor; try lia)]). constructor.
  - repeat (constructor; try lia).
Defined.

(** ** Candidate rows stay in the frame *)

Lemma argmin_from_range a :
  forall best ibest i,
    Py.argmin_from best ibest i a = ibest
    \/ i <= Py.argmin_from best ibest i a < i + Z.of_nat (List.length a).
Proof.
  induction a as [|u a IH]; intros best ibest i; cbn [Py.argmin_from].
  - left. reflexivity.
  - destruct (Py.Qltb u best).
    + destruct (IH u i (i + 1)) as [-> | H]; right; cbn [List.length]; lia.
    + destruct (IH best ibest (i + 1)) as [-> | H];
        [left; reflexivity | right; cbn [List.length]; lia].
Qed.

Lemma argmin_range a :
  0 <= Py.argmin a <= Z.max 0 (Z.of_nat (List.length a) - 1).
Proof.
  destruct a as [|u a]; cbn [Py.argmin]; [cbn; lia|].
  destruct (argmin_from_range a u 0 1) as [-> | H];
    cbn [List.length]; lia.
Qed.

Lemma slice_length_le {A} (a : list A) i1 i2 :
  (List.length (Py.slice a i1 i2) <= Z.to_nat (i2 - i1))%nat.
Proof.
  unfold Py.slice. rewrite length_firstn. lia.
Qed.

Lemma mark_gap_in_frame h scan_step xsection prev this ia :
  Forall (fun y => 0 <= y < h - 1) ia ->
  Forall (fun y => 0 <= y < h - 1)
         (Sampler.mark_gap h scan_step xsection prev this ia).
Proof.
  intros Hia. unfold Sampler.mark_gap.
  destruct (match Py.last_opt ia with Some _ => _ | None => _ end);
    [|exact Hia].
  destruct (0 <? Sampler.clamp_row h this - Sampler.clamp_row h prev) eqn:E;
    [|exact Hia].
  apply Z.ltb_lt in E. apply Forall_app. split; [exact Hia|].
  constructor; [|constructor].
  pose proof (argmin_range
                (Py.slice xsection (Sampler.clamp_row h prev)
                   (Sampler.clamp_row h this))) as Ha.
  pose proof (slice_length_le xsection (Sampler.clamp_row h prev)
                (Sampler.clamp_row h this)) as Hl.
  unfold Sampler.clamp_row in *. lia.
Qed.

Lemma across_apertures_in_frame h scan_step xsection groups :
  forall prev ia,
    Forall (fun y => 0 <= y < h - 1) ia ->
    Forall (fun y => 0 <= y < h - 1)
           (SamplerSpec.across_apertures h scan_step xsection groups prev ia).
Proof.
  induction groups as [|g groups IH]; intros prev ia Hia; cbn; [exact Hia|].
  destruct g as [|c cs]; [apply IH; exact Hia|].
  apply IH. destruct prev; [apply mark_gap_in_frame|]; exact Hia.
Qed.

(** X6: wherever the order centers lie, inside the frame or outside it,
    every candidate row found between them is a row of the frame below
    its last row: [0 <= row < h-1]. *)
Theorem candidate_rows_stay_in_frame
    h scan_step xsection x sets min_aper max_aper :
  Forall (fun y => 0 <= y < h - 1)
         (Sampler.find_inter_aper h scan_step xsection x sets
            min_aper max_aper).
Proof.
  unfold Sampler.find_inter_aper.
  rewrite SamplerFacts.scan_apertures_across.
  apply across_apertures_in_frame. constructor.
Qed.

(** ** What the extension adds *)

Lemma walk_up_extends h coeff fuel :
  forall ii new_y ia rows,
    Py.last_opt ia = Some new_y ->
    Sampler.walk_up h fuel coeff ii new_y ia = Some rows ->
    exists after y,
      rows = ia ++ after /\ Py.last_opt rows = Some y /\ h - 1 <= y.
Proof.
  induction fuel as [|fuel IH]; intros ii new_y ia rows Hl; cbn.
  - destruct (new_y <? h - 1) eqn:E; [discriminate|].
    intros [= <-]. apply Z.ltb_ge in E.
    exists [], new_y. rewrite app_nil_r. auto.
  - destruct (new_y <? h - 1) eqn:E.
    + intros H. apply IH in H; [|apply PyFacts.last_opt_app].
      destruct H as [after [y [Hr Hy]]].
      exists ([Py.int (Py.polyval coeff (inject_Z (ii + 1)))] ++ after), y.
      split; [rewrite Hr, <- app_assoc; reflexivity | exact Hy].
    + intros [= <-]. apply Z.ltb_ge in E.
      exists [], new_y. rewrite app_nil_r. auto.
Qed.

Lemma walk_down_extends coeff fuel :
  forall ii new_y ia rows,
    hd_error ia = Some new_y ->
    Sampler.walk_down fuel coeff ii new_y ia = Some rows ->
    exists before y,
      rows = before ++ ia /\ hd_error rows = Some y /\ y <= 0.
Proof.
  induction fuel as [|fuel IH]; intros ii new_y ia rows Hh; cbn.
  - destruct (0 <? new_y) eqn:E; [discriminate|].
    intros [= <-]. apply Z.ltb_ge in E. exists [], new_y. auto.
  - destruct (0 <? new_y) eqn:E.
    + intros H. apply IH in H; [|reflexivity].
      destruct H as [before [y [Hr Hy]]].
      exists (before ++ [Py.int (Py.polyval coeff (inject_Z (ii - 1)))]), y.
      split; [rewrite Hr, <- app_assoc; reflexivity | exact Hy].
    + intros [= <-]. apply Z.ltb_ge in E. exists [], new_y. auto.
Qed.

Lemma last_opt_app_nonempty {A} (a b : list A) v :
  Py.last_opt b = Some v -> Py.last_opt (a ++ b) = Some v.
Proof.
  unfold Py.last_opt. rewrite rev_app_distr.
  destruct (rev b) as [|u r]; [discriminate|]. cbn. auto.
Qed.

(** X7: when the extension of a column comes to an end, the rows found
    between the orders are all still there, in place; rows were only
    added before and after them, the first row is now at or below 0 and
    the last at or above [h-1]. *)
Theorem extension_keeps_found_rows_and_covers_frame
    h polyfit3 fuel ia rows :
  Sampler.extend_grid h polyfit3 fuel ia = Done rows ->
  exists before after first last,
    rows = before ++ ia ++ after
    /\ hd_error rows = Some first /\ first <= 0
    /\ Py.last_opt rows = Some last /\ h - 1 <= last.
Proof.
  unfold Sampler.extend_grid.
  destruct (Py.last_opt ia) as [lst|] eqn:Hl; [|discriminate].
  destruct (Sampler.walk_up h fuel (polyfit3 ia) _ lst ia) as [ia1|] eqn:E1;
    [|discriminate].
  destruct (Sampler.walk_down fuel (polyfit3 ia) 0 (hd 0 ia1) ia1)
    as [ia2|] eqn:E2; [|discriminate].
  intros [= <-].
  destruct (walk_up_extends _ _ _ _ _ _ _ Hl E1) as [after [y [Hr [Hy Hge]]]].
  assert (Hhd : hd_error ia1 = Some (hd 0 ia1)).
  { destruct ia1; [discriminate Hy | reflexivity]. }
  destruct (walk_down_extends _ _ _ _ _ _ Hhd E2)
    as [before [y0 [Hr2 [Hy0 Hle]]]].
  exists before, after, y0, y. subst ia1. split; [exact Hr2|].
  split; [exact Hy0|]. split; [exact Hle|]. split; [|exact Hge].
  rewrite Hr2. apply last_opt_app_nonempty. exact Hy.
Qed.

Lemma extension_witness :
  exists before after first last,
    [-193; 10; 147; 230; 271; 282; 275; 262; 255; 266; 307; 390]
    = before ++ Examples.rows_dip ++ after
    /\ hd_error [-193; 10; 147; 230; 271; 282; 275; 262; 255; 266; 307; 390]
       = Some first /\ first <= 0
    /\ Py.last_opt
         [-193; 10; 147; 230; 271; 282; 275; 262; 255; 266; 307; 390]
       = Some last /\ 350 - 1 <= last.
Proof.
  apply (extension_keeps_found_rows_and_covers_frame 350
           (fun _ => Examples.cubic_dip) 7 Examples.rows_dip).
  vm_compute. reflexivity.
Defined.

End ScanFacts.

(** * More on [fit_background] *)

Module FitMore.

Import Fit.

Section Loop.

Variable Coeff : Type.
Variable polyfit2d : list Q -> list Q -> list Q -> Z -> Z -> Coeff.
Variable polyval2d : list Q -> list Q -> Coeff -> list Q.
Variable std : list Q -> Q.
Variables (xfit yfit zfit : list Q).
Variables (xorder yorder : Z).
Variables (upper_clip lower_clip : Q).

Let loop :=
  fit_loop Coeff polyfit2d polyval2d std xfit yfit zfit xorder yorder
    upper_clip lower_clip.

Lemma loop_keeps_coeff rounds :
  forall niter st,
    coeff st <> None -> coeff (fst (loop rounds niter st)) <> None.
Proof.
  induction rounds as [|rounds IH]; intros niter st H; cbn; [exact H|].
  destruct (Nat.eqb _ _); cbn; [discriminate|].
  apply IH. cbn. discriminate.
Qed.

Lemma loop_binds_coeff rounds niter st :
  (0 < rounds)%nat -> coeff (fst (loop rounds niter st)) <> None.
Proof.
  destruct rounds as [|rounds]; [lia|]. intros _. cbn.
  destruct (Nat.eqb _ _); cbn; [discriminate|].
  apply loop_keeps_coeff. cbn. discriminate.
Qed.

Lemma chained_app k n log m :
  FitLog.chained k n log ->
  (forall l, In l log -> msg_N l <> msg_Nnew l) ->
  msg_niter m = (k + List.length log)%nat ->
  msg_N m = match Py.last_opt log with
            | Some l => msg_Nnew l
            | None => n
            end ->
  FitLog.chained k n (log ++ [m]).
Proof.
  revert k n. induction log as [|l log IH]; intros k n Hc Hne Hk HN.
  - cbn in *. rewrite Nat.add_0_r in Hk. repeat split; auto.
  - cbn [app FitLog.chained] in *. destruct Hc as [H1 [H2 [H3 H4]]].
    split; [exact H1|]. split; [exact H2|].
    split; [intros _; apply Hne; left; reflexivity|].
    apply IH; [exact H4 | intros; apply Hne; right; assumption | |].
    + cbn [List.length] in Hk. lia.
    + destruct log as [|l' log'] using rev_ind.
      * cbn in HN |- *. exact HN.
      * rewrite PyFacts.last_opt_app.
        change (l :: log' ++ [l']) with ((l :: log') ++ [l']) in HN.
        rewrite PyFacts.last_opt_app in HN. exact HN.
Qed.

(** The log a run leaves behind. *)
Lemma loop_log_chained rounds :
  forall niter st k n,
    FitLog.chained k n (_messages st) ->
    (forall l, In l (_messages st) -> msg_N l <> msg_Nnew l) ->
    niter = (k + List.length (_messages st))%nat ->
    Py.count (mask st) = match Py.last_opt (_messages st) with
                         | Some l => msg_Nnew l
                         | None => n
                         end ->
    FitLog.chained k n (_messages (fst (loop rounds niter st))).
Proof.
  induction rounds as [|rounds IH]; intros niter st k n Hc Hne Hk HN;
    cbn; [exact Hc|].
  destruct (Nat.eqb _ _) eqn:E; cbn.
  - apply chained_app; cbn; auto.
  - apply IH; cbn.
    + apply chained_app; cbn; auto.
    + intros l Hl. apply in_app_or in Hl. destruct Hl as [Hl | [<- | []]];
        [apply Hne; exact Hl|].
      cbn. apply Nat.eqb_neq in E. intros H. apply E. symmetry. exact H.
    + rewrite length_app. cbn. lia.
    + rewrite PyFacts.last_opt_app. reflexivity.
Qed.

End Loop.

Lemma count_ones {A} (a : list A) : Py.count (ones_like a) = List.length a.
Proof.
  unfold Py.count, ones_like.
  induction a as [|v a IH]; cbn; [reflexivity|]. f_equal. exact IH.
Qed.

Lemma sub_arr_length a b :
  List.length (sub_arr a b) = Nat.min (List.length a) (List.length b).
Proof.
  revert b. induction a as [|u a IH]; intros [|v b]; cbn; auto.
Qed.

Lemma mul_mask_length a b :
  List.length (mul_mask a b) = Nat.min (List.length a) (List.length b).
Proof.
  revert b. induction a as [|u a IH]; intros [|v b]; cbn; auto.
Qed.

Lemma flat_map_length_const {A B} (f : A -> list B) n (rows : list A) :
  (forall r, List.length (f r) = n) ->
  List.length (flat_map f rows) = (List.length rows * n)%nat.
Proof.
  intros Hf. induction rows as [|r rows IH]; cbn; [reflexivity|].
  rewrite length_app, Hf, IH. reflexivity.
Qed.

Lemma mgrid_length h w :
  List.length (mgrid_xx h w) = (Z.to_nat h * Z.to_nat w)%nat
  /\ List.length (mgrid_yy h w) = (Z.to_nat h * Z.to_nat w)%nat.
Proof.
  unfold mgrid_xx, mgrid_yy. split.
  - rewrite (flat_map_length_const _ (Z.to_nat w)), length_seq; [reflexivity|].
    intros r. rewrite length_map, length_seq. reflexivity.
  - rewrite (flat_map_length_const _ (Z.to_nat w)), length_seq; [reflexivity|].
    intros r. apply repeat_length.
Qed.

Lemma normalize_length a n : List.length (normalize a n) = List.length a.
Proof. apply length_map. Qed.

Section Lengths.

Variable Coeff : Type.
Variable polyfit2d : list Q -> list Q -> list Q -> Z -> Z -> Coeff.
Variable polyval2d : list Q -> list Q -> Coeff -> list Q.
Variable std : list Q -> Q.
Variables (xfit yfit zfit : list Q).
Variables (xorder yorder : Z).
Variables (upper_clip lower_clip : Q).

Hypothesis polyval2d_shape :
  forall x y c, List.length (polyval2d x y c) = List.length x.
Hypothesis same_length : List.length xfit = List.length zfit.

Lemma clip_length c m :
  List.length
    (clip Coeff polyval2d std xfit yfit zfit upper_clip lower_clip c m)
  = List.length zfit.
Proof.
  unfold clip, residuals_of. cbv zeta.
  rewrite mul_mask_length, !length_map, sub_arr_length, polyval2d_shape,
    same_length.
  lia.
Qed.

Lemma loop_mask_length rounds :
  forall niter st,
    List.length (mask st) = List.length zfit ->
    List.length
      (mask (fst (fit_loop Coeff polyfit2d polyval2d std xfit yfit zfit
                    xorder yorder upper_clip lower_clip rounds niter st)))
    = List.length zfit.
Proof.
  induction rounds as [|rounds IH]; intros niter st H; cbn; [exact H|].
  destruct (Nat.eqb _ _); cbn; [exact H|].
  apply IH. cbn. apply clip_length.
Qed.

End Lengths.

(** X9.  The iteration lines [fit_background] sends to the log: there are
    at most [maxiter] of them, they are numbered 0, 1, 2, ...; the first
    reports [N] = the number of nodes, every later one reports as [N] the
    [N(new)] of the line before it, and on every line but the last
    [N(new)] differs from [N]. *)
Theorem fit_log_is_chained
    (Coeff : Type)
    (polyfit2d : list Q -> list Q -> list Q -> Z -> Z -> Coeff)
    (polyval2d : list Q -> list Q -> Coeff -> list Q)
    (std : list Q -> Q)
    (shape : Z * Z) (xnodes ynodes : list Z) (znodes : list Q)
    (xorder yorder : Z) (maxiter : nat) (upper_clip lower_clip : Q) :
  let log :=
    snd (fit_background Coeff polyfit2d polyval2d std shape xnodes ynodes
           znodes xorder yorder maxiter upper_clip lower_clip) in
  FitLog.chained 0 (List.length znodes) log
  /\ (List.length log <= maxiter)%nat.
Proof.
  destruct shape as [h w]. cbv zeta.
  unfold fit_background. cbv zeta. cbn [snd].
  split.
  - unfold run_from. apply loop_log_chained; cbn.
    + exact I.
    + intros l [].
    + reflexivity.
    + apply count_ones.
  - apply FitFacts.run_log_bound.
Qed.

(** X10.  Shapes of what [fit_background] returns.  When [polyval2d]
    returns one value per point, the node columns, the node rows and the
    node intensities are arrays of one length and at least one round is
    run, the call returns a mask with one flag per node and a surface
    with one value per pixel of the [h] x [w] frame. *)
Theorem fit_returns_one_flag_per_node_and_one_value_per_pixel
    (Coeff : Type)
    (polyfit2d : list Q -> list Q -> list Q -> Z -> Z -> Coeff)
    (polyval2d : list Q -> list Q -> Coeff -> list Q)
    (std : list Q -> Q)
    (h w : Z) (xnodes ynodes : list Z) (znodes : list Q)
    (xorder yorder : Z) (maxiter : nat) (upper_clip lower_clip : Q)
    (polyval2d_shape :
       forall x y c, List.length (polyval2d x y c) = List.length x)
    (same_length : List.length xnodes = List.length znodes)
    (same_length_y : List.length ynodes = List.length znodes)
    (some_round : (0 < maxiter)%nat) :
  exists surface m,
    fst (fit_background Coeff polyfit2d polyval2d std (h, w) xnodes ynodes
           znodes xorder yorder maxiter upper_clip lower_clip)
    = Done (surface, m)
    /\ List.length m = List.length znodes
    /\ List.length surface = (Z.to_nat h * Z.to_nat w)%nat.
Proof.
  unfold fit_background, run_from. cbv zeta.
  cbn [fst]. unfold finish.
  pose proof (loop_binds_coeff Coeff polyfit2d polyval2d std
                (normalize xnodes w) (normalize ynodes h) znodes
                xorder yorder upper_clip lower_clip maxiter 0%nat
                {| coeff := None; mask := ones_like znodes;
                   _messages := [] |} some_round) as Hc.
  pose proof (loop_mask_length Coeff polyfit2d polyval2d std
                (normalize xnodes w) (normalize ynodes h) znodes
                xorder yorder upper_clip lower_clip polyval2d_shape) as Hm.
  rewrite normalize_length in Hm.
  specialize (Hm same_length maxiter 0%nat
                {| coeff := None; mask := ones_like znodes;
                   _messages := [] |}).
  destruct (coeff _) as [c|]; [|exfalso; apply Hc; reflexivity].
  eexists _, _. split; [reflexivity|]. split.
  - apply Hm. cbn. unfold ones_like. apply length_map.
  - unfold surface_of. rewrite polyval2d_shape, normalize_length.
    apply mgrid_length.
Qed.

(** The six nodes of [Examples], fitted at degree (0,0) in a frame of 8
    rows and 2 columns: six flags and sixteen surface values. *)
Lemma fit_shapes_witness :
  exists surface m,
    fst (Examples.fit_const Examples.six_shape Examples.six_x
           Examples.six_y Examples.six_z 0 0 3 (3 # 2) (1 # 2))
    = Done (surface, m)
    /\ List.length m = 6%nat
    /\ List.length surface = 16%nat.
Proof.
  apply (fit_returns_one_flag_per_node_and_one_value_per_pixel
           (list Q) Numerics.polyfit2d_const Numerics.polyval2d_const
           Numerics.std 8 2 Examples.six_x Examples.six_y Examples.six_z
           0 0 3 (3 # 2) (1 # 2)).
  - intros x y c. unfold Numerics.polyval2d_const. apply length_map.
  - reflexivity.
  - reflexivity.
  - lia.
Defined.

End FitMore.

(** * More on the body of [correct_background] *)

Module BodyMore.

Import Body.

Section AnyNumbers.

Variable F : Type.
Variable zero : F.
Variable ltb : F -> F -> bool.
Variable minimum : F -> F -> F.
Variable log10 : F -> F.
Variable power10 : F -> F.
Variable fit_background : list F -> outcome (list F * list bool).
Variable interpolate_background : list F -> outcome (list F * list bool).

(** X11.  With [display=False] and no [fig_file] the call never returns:
    no figure is made, and [plt.close(fig)] (or a statement before it)
    raises, whatever the method, the scale, the nodes and the fitters. *)
Theorem no_figure_never_returns
    (method scale : string) (reg_file : option string) (znodes : list F)
    (v : option (list F)) :
  fst (correct_background F zero ltb minimum log10 power10 fit_background
         interpolate_background method scale false None reg_file znodes)
  <> Done v.
Proof.
  BodyFacts.run_body; cbn; discriminate.
Qed.

(** X12.  Every call that returns went the same way: the method is
    ['poly'] or ['interp'], its fitter returned on the nodes (on their
    clamped logarithms when [scale='log']), a figure was asked for
    ([display] or a [fig_file]), the value is the fitted surface (raised
    to the power of ten on the logarithmic scale), and the call logged,
    drew, showed, saved the figure when a [fig_file] is given, and closed
    it, in this order. *)
Theorem returns_only_after_fit_and_figure
    (method scale : string) (display : bool)
    (fig_file reg_file : option string) (znodes : list F)
    (v : option (list F)) (tr : list effect) :
  correct_background F zero ltb minimum log10 power10 fit_background
    interpolate_background method scale display fig_file reg_file znodes
  = (Done v, tr) ->
  exists zs r,
    (if String.eqb scale "log"
     then log_scale F zero ltb minimum log10 znodes = Done zs
     else zs = znodes)
    /\ (method = "poly"%string /\ fit_background zs = Done r
        \/ method = "interp"%string /\ interpolate_background zs = Done r)
    /\ v = Some (if String.eqb scale "log" then map power10 (fst r)
                 else fst r)
    /\ (display = true \/ fig_file <> None)
    /\ tr = [LogInfo "Found nodes for background fitting"; Plot "figure";
             LogInfo "Background Nodes:"; Plot "surface and residuals";
             Plot "nodes and background"; Show]
            ++ match fig_file with Some f => [SaveFig f] | None => [] end
            ++ [CloseFig].
Proof.
  BodyFacts.run_body; cbn; intros H; try discriminate H;
    injection H as <- <-; try congruence.
  all: repeat match goal with
              | E : String.eqb _ _ = true |- _ => apply String.eqb_eq in E
              | E : Some _ = Some _ |- _ => injection E as E
              end.
  all: subst.
  all: eexists _, _.
  all: split; [reflexivity|].
  all: split; [first [left; split; [reflexivity | eassumption]
                     | right; split; [reflexivity | eassumption]]|].
  all: split; [reflexivity|].
  all: split; [first [right; discriminate | left; destruct display;
                                             [reflexivity | discriminate]]|].
  all: reflexivity.
Qed.

End AnyNumbers.

(** A call that returns, with the identity as fitter. *)
Lemma returns_witness :
  exists zs r,
    zs = [Float.Fin 1]
    /\ (("poly" = "poly")%string /\ Done (zs, map (fun _ => true) zs) = Done r
        \/ ("poly" = "interp")%string
           /\ Done (zs, map (fun _ => true) zs) = Done r)
    /\ Some [Float.Fin 1] = Some (fst r)
    /\ (true = true \/ @None string <> None)
    /\ [LogInfo "Found nodes for background fitting"; Plot "figure";
        LogInfo "Background Nodes:"; Plot "surface and residuals";
        Plot "nodes and background"; Show; CloseFig]
       = [LogInfo "Found nodes for background fitting"; Plot "figure";
          LogInfo "Background Nodes:"; Plot "surface and residuals";
          Plot "nodes and background"; Show] ++ [] ++ [CloseFig].
Proof.
  apply (returns_only_after_fit_and_figure Float.float Float.zero Float.ltb
           Float.minimum Float.log10 Float.power10
           (fun zs => Done (zs, map (fun _ => true) zs))
           (fun zs => Done (zs, map (fun _ => true) zs))
           "poly" "linear" true None (Some "nodes.reg"%string)
           [Float.Fin 1] (Some [Float.Fin 1])).
  reflexivity.
Defined.

End BodyMore.

(** * Frames whose fibers all have a background *)

Module MatchingMore.

Import Body Matching.

Local Open Scope string_scope.

Section Frame.

Variable find_best_background : Z -> string -> option BackgroundLight.
Variable select_background_from_database :
  Z -> string -> option BackgroundLight.
Variable find_brightness_scale : Z -> BackgroundLight -> Q.

Let round :=
  fiber_round find_best_background select_background_from_database
    find_brightness_scale.
Let loop :=
  fiber_loop find_best_background select_background_from_database
    find_brightness_scale.
Let selected_bkg :=
  Chosen.selected_bkg find_best_background select_background_from_database.
Let summed :=
  Chosen.summed find_best_background select_background_from_database
    find_brightness_scale.





End Frame.



End MatchingMore.

(** * The orders the spectrum viewer can reach *)

Module ViewerFacts.

Import Viewer.

Local Open Scope string_scope.







End ViewerFacts.

(** * Object names of the fibers *)

Module TextFacts.

Import Text.

(** ** [strip] *)

Lemma lstrip_head s :
  match lstrip s with [] => True | c :: _ => isspace c = false end.
Proof.
  induction s as [|c s IH]; cbn; [exact I|].
  destruct (isspace c) eqn:E; [exact IH | exact E].
Qed.

Lemma rstrip_last s :
  rstrip s = []
  \/ exists r c, rstrip s = r ++ [c] /\ isspace c = false.
Proof.
  induction s as [|c s IH]; cbn; [left; reflexivity|].
  destruct IH as [-> | [r [c' [-> H]]]].
  - destruct (isspace c) eqn:E; [left; reflexivity|].
    right. exists [], c. split; [reflexivity | exact E].
  - right. exists (c :: r), c'. split; [|exact H].
    destruct r; reflexivity.
Qed.

Lemma rstrip_head c s :
  rstrip (c :: s) = [] \/ exists r, rstrip (c :: s) = c :: r.
Proof.
  cbn. destruct (rstrip s) as [|d r].
  - destruct (isspace c); [left; reflexivity | right; exists []; reflexivity].
  - right. exists (d :: r). reflexivity.
Qed.

Lemma strip_stripped s : stripped (strip s).
Proof.
  unfold stripped, strip. split.
  - pose proof (lstrip_head s) as H.
    destruct (lstrip s) as [|c t]; [exact I|].
    destruct (rstrip_head c t) as [-> | [r ->]]; [exact I | exact H].
  - destruct (rstrip_last (lstrip s)) as [-> | [r [c [-> H]]]]; [exact I|].
    rewrite PyFacts.last_opt_app. exact H.
Qed.

(** ** [enumerate] and the filter *)

Lemma numbered_In {A} (l : list A) :
  forall start i a,
    In (i, a) (combine (map Z.of_nat (seq start (List.length l))) l)
    <-> exists n, i = Z.of_nat (start + n) /\ nth_error l n = Some a.
Proof.
  induction l as [|b l IH]; intros start i a; cbn.
  - split; [intros [] | intros [[|n] [_ H]]; discriminate H].
  - rewrite IH. split.
    + intros [[= <- <-] | [n [-> H]]].
      * exists 0%nat. rewrite Nat.add_0_r. split; reflexivity.
      * exists (S n). split; [f_equal; lia | exact H].
    + intros [[|n] [-> H]].
      * left. cbn in H. injection H as ->. rewrite Nat.add_0_r. reflexivity.
      * right. exists n. split; [f_equal; lia | exact H].
Qed.

Lemma enumerate_In {A} (l : list A) i a :
  In (i, a) (enumerate l)
  <-> 0 <= i /\ nth_error l (Z.to_nat i) = Some a.
Proof.
  unfold enumerate. rewrite numbered_In. cbn. split.
  - intros [n [-> H]]. rewrite Nat2Z.id. split; [lia | exact H].
  - intros [Hi H]. exists (Z.to_nat i). split; [lia | exact H].
Qed.

Lemma numbered_sorted {A} (keep : Z * A -> bool) (l : list A) :
  forall start,
    StronglySorted Z.lt
      (map fst (filter keep
                  (combine (map Z.of_nat (seq start (List.length l))) l)))
    /\ Forall (fun i => Z.of_nat start <= i)
         (map fst (filter keep
                     (combine (map Z.of_nat (seq start (List.length l))) l))).
Proof.
  induction l as [|b l IH]; intros start; cbn.
  - split; constructor.
  - destruct (IH (S start)) as [Hs Hf].
    assert (Forall (fun i => Z.of_nat start < i)
              (map fst (filter keep
                 (combine (map Z.of_nat (seq (S start) (List.length l))) l))))
      as Hlt.
    { eapply Forall_impl; [|exact Hf]. cbn beta. intros i Hi. lia. }
    destruct (keep (Z.of_nat start, b)); cbn.
    + split; [constructor; assumption|].
      constructor; [lia|].
      eapply Forall_impl; [|exact Hlt]. cbn beta. intros i Hi. lia.
    + split; [exact Hs|].
      eapply Forall_impl; [|exact Hlt]. cbn beta. intros i Hi. lia.
Qed.

Lemma find_nowhere {A} (f : A -> bool) (l : list A) :
  (forall x, In x l -> f x = false) -> find f l = None.
Proof.
  induction l as [|a l IH]; intros H; cbn; [reflexivity|].
  rewrite (H a (or_introl eq_refl)). apply IH.
  intros x Hx. apply H. right. exact Hx.
Qed.

Lemma numbered_find {A} (keep : Z * A -> bool) (l : list A) :
  forall start n k,
    k = Z.of_nat (start + n) ->
    find (fun v => fst v =? k)
      (filter keep (combine (map Z.of_nat (seq start (List.length l))) l))
    = match nth_error l n with
      | Some a => if keep (k, a) then Some (k, a) else None
      | None => None
      end.
Proof.
  induction l as [|b l IH]; intros start n k Hk.
  - destruct n; reflexivity.
  - cbn [List.length seq map combine filter].
    destruct n as [|n]; cbn [nth_error].
    + assert (k = Z.of_nat start) as -> by lia.
      destruct (keep (Z.of_nat start, b)) eqn:K; cbn [find fst].
      * rewrite Z.eqb_refl. reflexivity.
      * apply find_nowhere. intros v Hv.
        destruct (numbered_sorted keep l (S start)) as [_ Hf].
        rewrite Forall_forall in Hf.
        specialize (Hf (fst v) (in_map fst _ _ Hv)).
        apply Z.eqb_neq. lia.
    + destruct (keep (Z.of_nat start, b)); cbn [find fst].
      * replace (Z.of_nat start =? k) with false
          by (symmetry; apply Z.eqb_neq; lia).
        apply IH. lia.
      * apply IH. lia.
Qed.

Lemma enumerate_find {A} (keep : Z * A -> bool) (l : list A) k :
  0 <= k ->
  find (fun v => fst v =? k) (filter keep (enumerate l))
  = match nth_error l (Z.to_nat k) with
    | Some a => if keep (k, a) then Some (k, a) else None
    | None => None
    end.
Proof.
  intros Hk. unfold enumerate. apply numbered_find. cbn. lia.
Qed.

Lemma each_total {A B} (f : A -> option B) (g : A -> B) (l : list A) :
  (forall a, In a l -> f a = Some (g a)) ->
  Scan.each f l = Some (map g l).
Proof.
  induction l as [|a l IH]; intros H; cbn; [reflexivity|].
  rewrite (H a (or_introl eq_refl)), IH; [reflexivity|].
  intros x Hx. apply H. right. exact Hx.
Qed.

Lemma nonempty_length (s : str) :
  (0 <? List.length s)%nat = true <-> s <> [].
Proof.
  destruct s; cbn; split; intros H; try discriminate; try reflexivity;
    contradiction.
Qed.

(** X15.  [get_fiberobj_lst] raises exactly for the empty delimiter.
    Otherwise it lists, by increasing fiber number, the pairs (i, name)
    where name is the i-th piece of the string between delimiters with
    the white space at both ends removed, for exactly those pieces that
    are not blank: no name listed is empty, starts or ends with a space. *)
Theorem fiberobj_lst_lists_the_named_fibers (s delimiter : str) :
  (get_fiberobj_lst s delimiter = None <-> delimiter = [])
  /\ forall pieces,
       split s delimiter = Some pieces ->
       exists l,
         get_fiberobj_lst s delimiter = Some l
         /\ (forall i name,
               In (i, name) l
               <-> 0 <= i
                   /\ option_map strip (nth_error pieces (Z.to_nat i))
                      = Some name
                   /\ name <> [])
         /\ StronglySorted Z.lt (map fst l)
         /\ Forall (fun fo => stripped (snd fo)) l.
Proof.
  unfold get_fiberobj_lst. split.
  - unfold split. destruct delimiter; split; intros H;
      try reflexivity; discriminate H.
  - intros pieces ->. cbv zeta. eexists. split; [reflexivity|].
    split; [|split].
    + intros i name. rewrite filter_In, enumerate_In, nth_error_map.
      cbn [snd]. rewrite nonempty_length. tauto.
    + unfold enumerate. apply numbered_sorted.
    + apply Forall_forall. intros [i name] H.
      apply filter_In in H. destruct H as [H _].
      apply enumerate_In in H. destruct H as [_ H].
      rewrite nth_error_map in H.
      destruct (nth_error pieces (Z.to_nat i)) as [p|]; [|discriminate H].
      injection H as <-. cbn [snd]. apply strip_stripped.
Qed.

(** The objects of a two-fiber frame whose middle piece is blank. *)
Lemma fiberobj_lst_witness :
  exists l,
    get_fiberobj_lst (lit " HD 1 |  | comb") (lit "|") = Some l
    /\ (forall i name,
          In (i, name) l
          <-> 0 <= i
              /\ option_map strip
                   (nth_error [lit " HD 1 "; lit "  "; lit " comb"]
                      (Z.to_nat i))
                 = Some name
              /\ name <> [])
    /\ StronglySorted Z.lt (map fst l)
    /\ Forall (fun fo => stripped (snd fo)) l.
Proof.
  apply (proj2 (fiberobj_lst_lists_the_named_fibers
                  (lit " HD 1 |  | comb") (lit "|"))).
  reflexivity.
Defined.

(** X16.  The object string built from an object entry, as the reduction
    does it ([get_fiberobj_string] on the result of [get_fiberobj_lst]):
    for a fiber count whose letters [chr] can make, it is the join by one
    space of exactly [nfiber] entries, and the entry of fiber [k] is
    "(letter) name" when the k-th piece of the string has a name, and
    "(letter) ---- " when that piece is blank or missing; names of pieces
    beyond [nfiber] do not appear. *)
Theorem fiber_string_has_one_entry_per_fiber
    (s delimiter : str) (nfiber : Z) (pieces : list str) :
  split s delimiter = Some pieces ->
  nfiber <= 1114047 ->
  exists l entries,
    get_fiberobj_lst s delimiter = Some l
    /\ get_fiberobj_string l nfiber = Some (join (lit " ") entries)
    /\ List.length entries = Z.to_nat nfiber
    /\ forall k,
         0 <= k < nfiber ->
         nth_error entries (Z.to_nat k)
         = Some (lit "(" ++ [k + 65] ++ lit ") "
                 ++ match option_map strip (nth_error pieces (Z.to_nat k)) with
                    | Some (c :: name) => c :: name
                    | _ => lit "---- "
                    end).
Proof.
  intros Hs Hn. unfold get_fiberobj_lst. rewrite Hs. cbv zeta.
  set (l := filter _ _).
  set (g := fun k : Z =>
              lit "(" ++ [k + 65] ++ lit ") "
              ++ match option_map strip (nth_error pieces (Z.to_nat k)) with
                 | Some (c :: name) => c :: name
                 | _ => lit "---- "
                 end).
  assert (result_lst l nfiber
          = Some (map g (map Z.of_nat (seq 0 (Z.to_nat nfiber))))) as Hr.
  { unfold result_lst. apply each_total. intros a Ha.
    apply in_map_iff in Ha. destruct Ha as [n [<- Hn']].
    apply in_seq in Hn'.
    unfold fiber_entry, chr.
    replace ((0 <=? Z.of_nat n + 65) && (Z.of_nat n + 65 <? 1114112))
      with true
      by (symmetry; apply andb_true_iff; split;
          [apply Z.leb_le | apply Z.ltb_lt]; lia).
    unfold l. rewrite enumerate_find by lia.
    unfold g. rewrite nth_error_map.
    destruct (nth_error pieces (Z.to_nat (Z.of_nat n))) as [p|];
      cbn [option_map]; [|reflexivity].
    destruct (strip p) as [|c name]; reflexivity. }
  exists l, (map g (map Z.of_nat (seq 0 (Z.to_nat nfiber)))).
  split; [reflexivity|]. split; [|split].
  - unfold get_fiberobj_string. rewrite Hr. reflexivity.
  - rewrite !length_map, length_seq. reflexivity.
  - intros k Hk. rewrite !nth_error_map, nth_error_seq.
    replace (Z.to_nat k <? Z.to_nat nfiber)%nat with true
      by (symmetry; apply Nat.ltb_lt; lia).
    cbn [option_map]. rewrite Nat.add_0_l, Z2Nat.id by lia. reflexivity.
Qed.

(** Three fibers asked for on an entry that names the first and the
    third piece. *)
Lemma fiber_string_witness :
  exists l entries,
    get_fiberobj_lst (lit " HD 1 |  | comb") (lit "|") = Some l
    /\ get_fiberobj_string l 3 = Some (join (lit " ") entries)
    /\ List.length entries = Z.to_nat 3
    /\ forall k,
         0 <= k < 3 ->
         nth_error entries (Z.to_nat k)
         = Some (lit "(" ++ [k + 65] ++ lit ") "
                 ++ match option_map strip
                            (nth_error [lit " HD 1 "; lit "  "; lit " comb"]
                               (Z.to_nat k)) with
                    | Some (c :: name) => c :: name
                    | _ => lit "---- "
                    end).
Proof.
  apply (fiber_string_has_one_entry_per_fiber
           (lit " HD 1 |  | comb") (lit "|") 3
           [lit " HD 1 "; lit "  "; lit " comb"]).
  - reflexivity.
  - lia.
Defined.

End TextFacts.

(** * The entry points agree *)

Module PipelinesFacts.

Import Text Pipelines.

Lemma str_eqb_eq a b : str_eqb a b = true <-> a = b.
Proof.
  unfold str_eqb. destruct (list_eq_dec Z.eq_dec a b); split; intros H;
    try reflexivity; try assumption; try discriminate; contradiction.
Qed.

(** The test [fname[-4:]=='.cfg'] is the test for the suffix. *)
Lemma is_cfg_suffix fname :
  is_cfg fname = true <-> exists stem, fname = stem ++ lit ".cfg".
Proof.
  unfold is_cfg, last4. rewrite str_eqb_eq. split.
  - intros H. exists (firstn (List.length fname - 4) fname).
    rewrite <- H. symmetry. apply firstn_skipn.
  - intros [stem ->]. rewrite length_app.
    change (List.length (lit ".cfg")) with 4%nat.
    replace (List.length stem + 4 - 4)%nat with (List.length stem + 0)%nat
      by lia.
    rewrite skipn_app, Nat.add_0_r, skipn_all.
    replace (List.length stem - List.length stem)%nat with 0%nat by lia.
    reflexivity.
Qed.

Lemma append_loop_is_filter listdir :
  forall config_file_lst,
    fold_left
      (fun config_file_lst fname =>
         if is_cfg fname then config_file_lst ++ [fname]
         else config_file_lst)
      listdir config_file_lst
    = config_file_lst ++ filter is_cfg listdir.
Proof.
  induction listdir as [|fname listdir IH]; intros acc; cbn.
  - rewrite app_nil_r. reflexivity.
  - rewrite IH. destruct (is_cfg fname); [|reflexivity].
    rewrite <- app_assoc. reflexivity.
Qed.

(** X17.  [reduce_echelle] and [make_log] work from the same
    configuration: both read, in directory order, exactly the files whose
    name ends in ".cfg" (a file named ".cfg" included), and for every
    telescope and instrument they choose the same instrument package, or
    both stop on "Unknown Instrument". *)
Theorem entry_points_agree
    (listdir : list str) (telescope instrument rawdata : str) :
  make_log_config_file_lst listdir = reduce_echelle_config_file_lst listdir
  /\ (forall fname,
        In fname (reduce_echelle_config_file_lst listdir)
        <-> In fname listdir /\ exists stem, fname = stem ++ lit ".cfg")
  /\ (forall p,
        reduce_echelle telescope instrument = Reduce p
        <-> make_log telescope instrument rawdata = MakeLog p rawdata)
  /\ (reduce_echelle telescope instrument
      = UnknownInstrument telescope instrument
      <-> make_log telescope instrument rawdata
          = UnknownInstrument telescope instrument).
Proof.
  split; [|split; [|split]].
  - unfold make_log_config_file_lst, reduce_echelle_config_file_lst.
    rewrite append_loop_is_filter. reflexivity.
  - intros fname. unfold reduce_echelle_config_file_lst.
    rewrite filter_In, is_cfg_suffix. reflexivity.
  - intros p. unfold reduce_echelle, make_log.
    repeat match goal with
           | |- context [if ?b then _ else _] => destruct b
           end;
      split; intros H; try discriminate H; injection H as <-; reflexivity.
  - unfold reduce_echelle, make_log.
    repeat match goal with
           | |- context [if ?b then _ else _] => destruct b
           end;
      split; intros H; try discriminate H; reflexivity.
Qed.

End PipelinesFacts.
